(** * A shallow embedding of pkg/bmcs/client/client.go

    The client wraps the BMCS SDK (package [baremetal]) and adds instance
    lookup by node name, work request polling, load balancer helpers and
    subnet resolution.  Every method of the Go client talks to the cloud
    API; here a call is answered by a [Baremetal] value (the embedded SDK
    client) and is recorded in a trace, so that both the value a method
    returns and the calls it makes can be stated.  The unbounded [for]
    loops of the source are given fuel. *)

From Stdlib Require Import List String Ascii Bool Arith ZArith QArith Lia.
From Stdlib Require Import DecimalString Decimal.
From Stdlib Require Import Permutation Sorted Qround.
Import ListNotations.
Open Scope string_scope.
Open Scope list_scope.
Close Scope Q_scope.

(** ** Constants of the SDK and of the package *)

Module baremetal.

(** Resource states are plain strings in the SDK; these are its constants.
    The records below keep the fields client.go reads or passes on. *)
Definition ResourceRunning : string := "RUNNING".
Definition ResourceAttached : string := "ATTACHED".
Definition ResourceAvailable : string := "AVAILABLE".
Definition WorkRequestInProgress : string := "IN_PROGRESS".
Definition WorkRequestSucceeded : string := "SUCCEEDED".
Definition WorkRequestFailed : string := "FAILED".

Record Instance := {
  Instance_ID : string;
  Instance_DisplayName : string;
  Instance_State : string
}.

Record VnicAttachment := {
  VnicAttachment_ID : string;
  VnicAttachment_InstanceID : string;
  VnicAttachment_VnicID : string;
  VnicAttachment_State : string
}.

Record Vnic := {
  Vnic_ID : string;
  Vnic_HostnameLabel : string;
  Vnic_PrivateIPAddress : string;
  Vnic_PublicIPAddress : string;
  Vnic_SubnetID : string;
  Vnic_State : string
}.

Record Subnet := {
  Subnet_ID : string;
  Subnet_SecurityListIDs : list string
}.

Record WorkRequest := {
  WorkRequest_ID : string;
  WorkRequest_LoadBalancerID : string;
  WorkRequest_State : string;
  WorkRequest_Message : string
}.

Record LoadBalancer := {
  LoadBalancer_ID : string;
  LoadBalancer_DisplayName : string
}.

(** The health checker and the SSL and session persistence configurations
    are handed to the SDK as they come; they are opaque here, [None] for
    [nil]. *)
Record BackendSet := {
  BackendSet_Name : string;
  BackendSet_Policy : string;
  BackendSet_Backends : list string;
  BackendSet_HealthChecker : option string;
  BackendSet_SSLConfig : option string;
  BackendSet_SessionPersistenceConfig : option string
}.

Record Listener := {
  Listener_Name : string;
  Listener_DefaultBackendSetName : string;
  Listener_Protocol : string;
  Listener_Port : Z;
  Listener_SSLConfig : option string
}.

(** Options of the list calls.  [Page] is the cursor; the empty string
    is the absent cursor. *)
Record PageListOptions := { Page : string }.

Record ListOptions := { ListOptions_Page : PageListOptions }.

Record ListInstancesOptions := {
  ListInstances_DisplayName : string;
  ListInstances_Page : PageListOptions
}.

Record ListVnicAttachmentsOptions := {
  ListVnicAttachments_InstanceID : string;
  ListVnicAttachments_Page : PageListOptions
}.

(** What the list calls return: the items of one page and [NextPage]. *)
Record InstancePage := {
  Instances : list Instance;
  InstancePage_NextPage : string
}.

Record AttachmentPage := {
  Attachments : list VnicAttachment;
  AttachmentPage_NextPage : string
}.

Record LoadBalancerPage := {
  LoadBalancers : list LoadBalancer;
  LoadBalancerPage_NextPage : string
}.

End baremetal.
Import baremetal.

Definition DefaultLoadBalancerPolicy : string := "ROUND_ROBIN".

(** ** Errors

    [fmt.Errorf] and [fmt.Sprintf] are kept as the format string of the
    source with its operands, unformatted. *)

Inductive operand :=
| OpString (s : string)
| OpInt (n : nat).

Record formatted := Sprintf { format : string; operands : list operand }.

Inductive error :=
| Errorf (f : string) (ops : list operand)
| SearchError (Err : formatted) (NotFound : bool)
| ErrWaitTimeout
| SdkError (msg : string).

(** ** Calls to the cloud API and their trace *)

Inductive Call :=
| CallListInstances (compartment : string) (opts : ListInstancesOptions)
| CallListVnicAttachments (compartment : string)
    (opts : option ListVnicAttachmentsOptions)
| CallListLoadBalancers (compartment : string) (opts : ListOptions)
| CallGetInstance (id : string)
| CallGetVnic (id : string)
| CallGetSubnet (id : string)
| CallGetWorkRequest (id : string)
| CallCreateLoadBalancer (compartment shape : string)
    (subnets : list string) (displayName : string)
| CallGetLoadBalancer (id : string)
| CallCreateBackendSet (loadBalancerID name policy : string)
    (backends : list string)
    (healthChecker sslConfig sessionPersistenceConfig : option string)
| CallGetBackendSet (loadBalancerID name : string)
| CallCreateListener (loadBalancerID name defaultBackendSetName
    protocol : string) (port : Z) (sslConfig : option string).

Definition Trace := list Call.

(** The SDK client.  An answer may depend on the calls made so far: a work
    request changes state between two polls. *)
Record Baremetal := {
  ListInstances_ : Trace -> string -> ListInstancesOptions ->
                   error + InstancePage;
  ListVnicAttachments_ : Trace -> string ->
                   option ListVnicAttachmentsOptions ->
                   error + AttachmentPage;
  ListLoadBalancers_ : Trace -> string -> ListOptions ->
                   error + LoadBalancerPage;
  GetInstance_ : Trace -> string -> error + Instance;
  GetVnic_ : Trace -> string -> error + Vnic;
  GetSubnet_ : Trace -> string -> error + Subnet;
  GetWorkRequest_ : Trace -> string -> error + WorkRequest;
  CreateLoadBalancer_ : Trace -> string -> string -> list string -> string ->
                   error + string;
  GetLoadBalancer_ : Trace -> string -> error + LoadBalancer;
  CreateBackendSet_ : Trace -> string -> string -> string -> list string ->
                   option string -> option string -> option string ->
                   error + string;
  GetBackendSet_ : Trace -> string -> string -> error + BackendSet;
  CreateListener_ : Trace -> string -> string -> string -> string -> Z ->
                   option string -> error + string
}.

(** ** The monad of client methods: a result or an error, and the trace *)

Inductive outcome (A : Type) :=
| Returned (a : A)
| Failed (e : error)
| OutOfFuel.
Arguments Returned {A} a.
Arguments Failed {A} e.
Arguments OutOfFuel {A}.

Definition M (A : Type) := Trace -> outcome A * Trace.

Definition ret {A} (a : A) : M A := fun h => (Returned a, h).

Definition fail {A} (e : error) : M A := fun h => (Failed e, h).

Definition diverge {A} : M A := fun h => (OutOfFuel, h).

Definition bind {A B} (m : M A) (f : A -> M B) : M B :=
  fun h =>
    match m h with
    | (Returned a, h') => f a h'
    | (Failed e, h') => (Failed e, h')
    | (OutOfFuel, h') => (OutOfFuel, h')
    end.

Notation "x <- m ;; k" := (bind m (fun x => k))
  (at level 61, m at next level, right associativity).

(** One call: the answer is read at the current trace, the call is
    appended to it. *)
Definition call {A} (ev : Call) (answer : Trace -> error + A) : M A :=
  fun h =>
    (match answer h with inl e => Failed e | inr a => Returned a end,
     h ++ [ev]).

(** ** The client *)

Record client := {
  Client : Baremetal;
  compartmentOCID : string
}.

Section Methods.

Variable c : client.

Definition ListInstances compartment opts : M InstancePage :=
  call (CallListInstances compartment opts)
       (fun h => ListInstances_ (Client c) h compartment opts).

Definition ListVnicAttachments compartment opts : M AttachmentPage :=
  call (CallListVnicAttachments compartment opts)
       (fun h => ListVnicAttachments_ (Client c) h compartment opts).

Definition ListLoadBalancers compartment opts : M LoadBalancerPage :=
  call (CallListLoadBalancers compartment opts)
       (fun h => ListLoadBalancers_ (Client c) h compartment opts).

Definition GetInstance id : M Instance :=
  call (CallGetInstance id) (fun h => GetInstance_ (Client c) h id).

Definition GetVnic id : M Vnic :=
  call (CallGetVnic id) (fun h => GetVnic_ (Client c) h id).

Definition GetSubnet id : M Subnet :=
  call (CallGetSubnet id) (fun h => GetSubnet_ (Client c) h id).

Definition GetWorkRequest id : M WorkRequest :=
  call (CallGetWorkRequest id) (fun h => GetWorkRequest_ (Client c) h id).

Definition CreateLoadBalancer compartment shape subnets name : M string :=
  call (CallCreateLoadBalancer compartment shape subnets name)
       (fun h => CreateLoadBalancer_ (Client c) h compartment shape
                   subnets name).

Definition GetLoadBalancer id : M LoadBalancer :=
  call (CallGetLoadBalancer id) (fun h => GetLoadBalancer_ (Client c) h id).

Definition CreateBackendSet lbID name policy backends healthChecker
    sslConfig sessionPersistenceConfig : M string :=
  call (CallCreateBackendSet lbID name policy backends healthChecker
          sslConfig sessionPersistenceConfig)
       (fun h => CreateBackendSet_ (Client c) h lbID name policy backends
                   healthChecker sslConfig sessionPersistenceConfig).

Definition GetBackendSet lbID name : M BackendSet :=
  call (CallGetBackendSet lbID name)
       (fun h => GetBackendSet_ (Client c) h lbID name).

Definition CreateListener lbID name backendSet protocol port sslConfig
  : M string :=
  call (CallCreateListener lbID name backendSet protocol port sslConfig)
       (fun h => CreateListener_ (Client c) h lbID name backendSet
                   protocol port sslConfig).

(** Modelled from the spec: [SetNextPageOption] is defined in another file
    of package client.  A listing call returns an optional next-page
    cursor whose absence signals the end of the result set; the cursor is
    fed back into the options of the next call.  The result is the
    has-next-page flag together with the options as they are left.  What
    the helper does with a cursor that is already the one in the options
    cannot be read off the call sites; the statements below are about
    listings that never answer such a cursor, or hold whatever the helper
    answers. *)
Definition SetNextPageOption (nextPage : string) (opts : PageListOptions)
  : bool * PageListOptions :=
  if (nextPage =? "")%string then (false, opts)
  else (true, {| Page := nextPage |}).

(** *** GetInstanceByNodeName, lines 144-185 *)

Definition isRunning (i : Instance) : bool :=
  (Instance_State i =? ResourceRunning)%string.

(** The inner [for _, i := range r.Instances] of lines 162-166. *)
Fixpoint appendRunning (running : list Instance) (instances : list Instance)
  : list Instance :=
  match instances with
  | [] => running
  | i :: rest =>
      if isRunning i then appendRunning (running ++ [i]) rest
      else appendRunning running rest
  end.

(** The [for] of lines 156-171. *)
Fixpoint listInstancesLoop (fuel : nat) (opts : ListInstancesOptions)
    (running : list Instance) : M (list Instance) :=
  match fuel with
  | O => diverge
  | S fuel' =>
      r <- ListInstances (compartmentOCID c) opts ;;
      let running := appendRunning running (Instances r) in
      let (hasNexPage, page) :=
        SetNextPageOption (InstancePage_NextPage r)
                          (ListInstances_Page opts) in
      if hasNexPage
      then listInstancesLoop fuel'
             {| ListInstances_DisplayName := ListInstances_DisplayName opts;
                ListInstances_Page := page |} running
      else ret running
  end.

(** *** findInstanceByNodeNameIsVnic, lines 197-241 *)

(** The condition of lines 212-213. *)
Definition vnicIsNode (nodeName : string) (vnic : Vnic) : bool :=
  (Vnic_PublicIPAddress vnic =? nodeName)%string
  || (negb (Vnic_HostnameLabel vnic =? "")%string
      && String.prefix (Vnic_HostnameLabel vnic) nodeName).

(** The inner [for _, attachment := range] of lines 205-223. *)
Fixpoint scanAttachments (nodeName : string) (running : list Instance)
    (atts : list VnicAttachment) : M (list Instance) :=
  match atts with
  | [] => ret running
  | attachment :: rest =>
      if (VnicAttachment_State attachment =? ResourceAttached)%string
      then
        vnic <- GetVnic (VnicAttachment_VnicID attachment) ;;
        if vnicIsNode nodeName vnic
        then
          instance <- GetInstance (VnicAttachment_InstanceID attachment) ;;
          if isRunning instance
          then scanAttachments nodeName (running ++ [instance]) rest
          else scanAttachments nodeName running rest
        else scanAttachments nodeName running rest
      else scanAttachments nodeName running rest
  end.

(** The [for] of lines 200-227. *)
Fixpoint vnicScanLoop (fuel : nat) (nodeName : string)
    (opts : ListVnicAttachmentsOptions) (running : list Instance)
  : M (list Instance) :=
  match fuel with
  | O => diverge
  | S fuel' =>
      vnicAttachments <- ListVnicAttachments (compartmentOCID c)
                           (Some opts) ;;
      running <- scanAttachments nodeName running
                   (Attachments vnicAttachments) ;;
      let (hasNextPage, page) :=
        SetNextPageOption (AttachmentPage_NextPage vnicAttachments)
                          (ListVnicAttachments_Page opts) in
      if hasNextPage
      then vnicScanLoop fuel' nodeName
             {| ListVnicAttachments_InstanceID :=
                  ListVnicAttachments_InstanceID opts;
                ListVnicAttachments_Page := page |} running
      else ret running
  end.

Definition findInstanceByNodeNameIsVnic (fuel : nat) (nodeName : string)
  : M Instance :=
  running <- vnicScanLoop fuel nodeName
               {| ListVnicAttachments_InstanceID := "";
                  ListVnicAttachments_Page := {| Page := "" |} |} [] ;;
  match running with
  | [] =>
      fail (SearchError
              (Sprintf "could not find instance for node name %q"
                       [OpString nodeName])
              true)
  | [i] => ret i
  | _ =>
      fail (Errorf "expected one instance vnic ip/hostname %q but got %d"
                   [OpString nodeName; OpInt (List.length running)])
  end.

Definition GetInstanceByNodeName (fuel : nat) (nodeName : string)
  : M Instance :=
  if (nodeName =? "")%string
  then fail (Errorf "blank nodeName passed to getInstanceByNodeName()" [])
  else
    running <- listInstancesLoop fuel
                 {| ListInstances_DisplayName := nodeName;
                    ListInstances_Page := {| Page := "" |} |} [] ;;
    match running with
    | [] => findInstanceByNodeNameIsVnic fuel nodeName
    | [i] => ret i
    | _ =>
        fail (Errorf
                "expected one instance with display name '%s' but got %d"
                [OpString nodeName; OpInt (List.length running)])
    end.

(** *** GetAttachedVnicsForInstance, lines 303-340 *)

(** The inner [for _, att := range r.Attachments] of lines 319-333. *)
Fixpoint collectVnics (vnics : list Vnic) (atts : list VnicAttachment)
  : M (list Vnic) :=
  match atts with
  | [] => ret vnics
  | att :: rest =>
      if negb (VnicAttachment_State att =? ResourceAttached)%string
      then collectVnics vnics rest
      else
        v <- GetVnic (VnicAttachment_VnicID att) ;;
        if negb (Vnic_State v =? ResourceAvailable)%string
        then collectVnics vnics rest
        else collectVnics (vnics ++ [v]) rest
  end.

(** The [for] of lines 313-338. *)
Fixpoint attachedVnicsLoop (fuel : nat) (opts : ListVnicAttachmentsOptions)
    (vnics : list Vnic) : M (list Vnic) :=
  match fuel with
  | O => diverge
  | S fuel' =>
      r <- ListVnicAttachments (compartmentOCID c) (Some opts) ;;
      vnics <- collectVnics vnics (Attachments r) ;;
      let (hasNexPage, page) :=
        SetNextPageOption (AttachmentPage_NextPage r)
                          (ListVnicAttachments_Page opts) in
      if hasNexPage
      then attachedVnicsLoop fuel'
             {| ListVnicAttachments_InstanceID :=
                  ListVnicAttachments_InstanceID opts;
                ListVnicAttachments_Page := page |} vnics
      else ret vnics
  end.

Definition GetAttachedVnicsForInstance (fuel : nat) (id : string)
  : M (list Vnic) :=
  if (id =? "")%string
  then fail (Errorf
    "blank instance id passed to getVincesForAttachedInstance()" [])
  else attachedVnicsLoop fuel
         {| ListVnicAttachments_InstanceID := id;
            ListVnicAttachments_Page := {| Page := "" |} |} [].

(** *** extractNodeAddressesFromVnic, lines 271-299

    [net.ParseIP] and [IP.String] belong to Go's standard library and are
    taken as given: [ParseIP] answers [None] where Go answers [nil]. *)

Variable IP : Type.
Variable ParseIP : string -> option IP.
Variable IPString : IP -> string.

Definition NodeInternalIP : string := "InternalIP".
Definition NodeExternalIP : string := "ExternalIP".

Record NodeAddress := {
  NodeAddress_Type : string;
  NodeAddress_Address : string
}.

Definition extractNodeAddressesFromVnic (vnic : option Vnic)
  : M (list NodeAddress) :=
  match vnic with
  | None =>
      fail (Errorf "nil Vnic passed to extractNodeAddressesFromVnic()" [])
  | Some vnic =>
      let addresses : list NodeAddress := [] in
      let ip := ParseIP (Vnic_PrivateIPAddress vnic) in
      addresses <-
        (if negb (Vnic_PrivateIPAddress vnic =? "")%string
         then
           match ip with
           | None =>
               fail (Errorf "instance has invalid private address: %q"
                            [OpString (Vnic_PrivateIPAddress vnic)])
           | Some ip =>
               ret (addresses ++
                    [{| NodeAddress_Type := NodeInternalIP;
                        NodeAddress_Address := IPString ip |}])
           end
         else ret addresses) ;;
      if negb (Vnic_PublicIPAddress vnic =? "")%string
      then
        match ParseIP (Vnic_PublicIPAddress vnic) with
        | None =>
            fail (Errorf "instance has invalid public address: %q"
                         [OpString (Vnic_PublicIPAddress vnic)])
        | Some ip =>
            ret (addresses ++
                 [{| NodeAddress_Type := NodeExternalIP;
                     NodeAddress_Address := IPString ip |}])
        end
      else ret addresses
  end.

(** *** GetNodeAddressesForInstance, lines 245-266 *)

Fixpoint extractAll (addresses : list NodeAddress) (vnics : list Vnic)
  : M (list NodeAddress) :=
  match vnics with
  | [] => ret addresses
  | vnic :: rest =>
      addrs <- extractNodeAddressesFromVnic (Some vnic) ;;
      extractAll (addresses ++ addrs) rest
  end.

Definition GetNodeAddressesForInstance (fuel : nat) (id : string)
  : M (list NodeAddress) :=
  if (id =? "")%string
  then fail (Errorf "blank id passed to getNodeAddressesForInstance()" [])
  else
    vnics <- GetAttachedVnicsForInstance fuel id ;;
    extractAll [] vnics.

End Methods.

(** ** Work requests, lines 343-376 *)

Module wait.

(** [Duration] counts nanoseconds, as [time.Duration] does. *)
Record Backoff := {
  Duration : Z;
  Factor : Q;
  Jitter : Q;
  Steps : nat
}.

Definition ErrWaitTimeout : error := ErrWaitTimeout.

(** Modelled from the spec: [wait.ExponentialBackoff] belongs to the
    Kubernetes library.  The condition is polled until it reports a
    terminal state, at most [Steps] times in all; an error of the
    condition aborts the polling at once; when the attempts are used up
    the result is the timeout error.  The waiting between two attempts
    (from [Duration], times [Factor] at each step, with [Jitter]) changes
    neither the calls nor the result and is not part of the model.  The
    condition of the source assigns its result to a captured variable
    before it reports [true]; here it answers [Some] of that result for
    [true, nil] and [None] for [false, nil]. *)
Fixpoint poll {A} (steps : nat) (condition : M (option A)) : M A :=
  match steps with
  | O => fail ErrWaitTimeout
  | S steps' =>
      ok <- condition ;;
      match ok with
      | Some a => ret a
      | None => poll steps' condition
      end
  end.

Definition ExponentialBackoff {A} (backoff : Backoff)
    (condition : M (option A)) : M A :=
  poll (Steps backoff) condition.

End wait.

Definition Second : Z := 1000000000.

(** f(n) = 1.25 * f(n - 1) | f(1) = 2 *)
Definition backoff : wait.Backoff := {|
  wait.Steps := 15;
  wait.Duration := 2 * Second;
  wait.Factor := 1.25;
  wait.Jitter := 0.1
|}.

Section LoadBalancers.

Variable c : client.

Definition AwaitWorkRequest (id : string) : M WorkRequest :=
  wait.ExponentialBackoff backoff
    (twr <- GetWorkRequest c id ;;
     if (WorkRequest_State twr =? WorkRequestSucceeded)%string
     then ret (Some twr)
     else if (WorkRequest_State twr =? WorkRequestFailed)%string
     then fail (Errorf "WorkRequest %q failed: %s"
                       [OpString id; OpString (WorkRequest_Message twr)])
     else ret None).

(** *** CreateAndAwaitLoadBalancer, lines 380-398 *)
Definition CreateAndAwaitLoadBalancer (name shape : string)
    (subnets : list string) : M LoadBalancer :=
  req <- CreateLoadBalancer c (compartmentOCID c) shape subnets name ;;
  result <- AwaitWorkRequest req ;;
  GetLoadBalancer c (WorkRequest_LoadBalancerID result).

(** *** GetLoadBalancerByName, lines 401-421 *)

(** The inner [for _, lb := range r.LoadBalancers] of lines 408-412, which
    returns from the method at the first match. *)
Fixpoint firstNamed (name : string) (lbs : list LoadBalancer)
  : option LoadBalancer :=
  match lbs with
  | [] => None
  | lb :: rest =>
      if (LoadBalancer_DisplayName lb =? name)%string then Some lb
      else firstNamed name rest
  end.

Fixpoint loadBalancerLoop (fuel : nat) (name : string) (opts : ListOptions)
  : M LoadBalancer :=
  match fuel with
  | O => diverge
  | S fuel' =>
      r <- ListLoadBalancers c (compartmentOCID c) opts ;;
      match firstNamed name (LoadBalancers r) with
      | Some lb => ret lb
      | None =>
          let (hasNexPage, page) :=
            SetNextPageOption (LoadBalancerPage_NextPage r)
                              (ListOptions_Page opts) in
          if hasNexPage
          then loadBalancerLoop fuel' name {| ListOptions_Page := page |}
          else
            fail (SearchError
                    (Sprintf "could not find load balancer with name '%s'"
                             [OpString name])
                    true)
      end
  end.

Definition GetLoadBalancerByName (fuel : nat) (name : string)
  : M LoadBalancer :=
  loadBalancerLoop fuel name {| ListOptions_Page := {| Page := "" |} |}.

(** *** CreateAndAwaitBackendSet, lines 425-446 *)
Definition CreateAndAwaitBackendSet (lb : LoadBalancer) (bs : BackendSet)
  : M BackendSet :=
  wr <- CreateBackendSet c (LoadBalancer_ID lb) (BackendSet_Name bs)
          (BackendSet_Policy bs) (BackendSet_Backends bs)
          (BackendSet_HealthChecker bs) (BackendSet_SSLConfig bs)
          (BackendSet_SessionPersistenceConfig bs) ;;
  _ <- AwaitWorkRequest wr ;;
  GetBackendSet c (LoadBalancer_ID lb) (BackendSet_Name bs).

(** *** CreateAndAwaitListener, lines 449-467 *)
Definition CreateAndAwaitListener (lb : LoadBalancer) (listener : Listener)
  : M unit :=
  wr <- CreateListener c (LoadBalancer_ID lb) (Listener_Name listener)
          (Listener_DefaultBackendSetName listener)
          (Listener_Protocol listener) (Listener_Port listener)
          (Listener_SSLConfig listener) ;;
  _ <- AwaitWorkRequest wr ;;
  ret tt.

End LoadBalancers.

(** ** Subnets, lines 471-504 *)

Module sets.

(** [sets.String] of the Kubernetes library, a set of strings. *)
Definition String := list string.

Definition Has (s : String) (item : string) : bool :=
  existsb (String.eqb item) s.

Definition Insert (s : String) (item : string) : String :=
  if Has s item then s else item :: s.

Definition NewString (items : list string) : String :=
  fold_left Insert items [].

End sets.

Section Subnets.

Variable c : client.

(** The inner [for _, attachment := range r.Attachments] of lines
    482-498; the set of seen subnets and the result are threaded. *)
Fixpoint resolveAttachments (ipSet : sets.String)
    (subnetOCIDs : sets.String) (subnets : list Subnet)
    (atts : list VnicAttachment) : M (sets.String * list Subnet) :=
  match atts with
  | [] => ret (subnetOCIDs, subnets)
  | attachment :: rest =>
      if (VnicAttachment_State attachment =? ResourceAttached)%string
      then
        vnic <- GetVnic c (VnicAttachment_VnicID attachment) ;;
        if negb (Vnic_PrivateIPAddress vnic =? "")%string
           && sets.Has ipSet (Vnic_PrivateIPAddress vnic)
           && negb (sets.Has subnetOCIDs (Vnic_SubnetID vnic))
        then
          subnet <- GetSubnet c (Vnic_SubnetID vnic) ;;
          resolveAttachments ipSet
            (sets.Insert subnetOCIDs (Vnic_SubnetID vnic))
            (subnets ++ [subnet]) rest
        else resolveAttachments ipSet subnetOCIDs subnets rest
      else resolveAttachments ipSet subnetOCIDs subnets rest
  end.

(** The [for] of lines 477-502.  The listing call of line 478 is given
    [nil], not [opts]; [opts] only receives the cursor at line 499. *)
Fixpoint subnetsLoop (fuel : nat) (ipSet : sets.String)
    (opts : ListVnicAttachmentsOptions) (subnetOCIDs : sets.String)
    (subnets : list Subnet) : M (list Subnet) :=
  match fuel with
  | O => diverge
  | S fuel' =>
      r <- ListVnicAttachments c (compartmentOCID c) None ;;
      st <- resolveAttachments ipSet subnetOCIDs subnets (Attachments r) ;;
      let (hasNexPage, page) :=
        SetNextPageOption (AttachmentPage_NextPage r)
                          (ListVnicAttachments_Page opts) in
      if hasNexPage
      then subnetsLoop fuel' ipSet
             {| ListVnicAttachments_InstanceID :=
                  ListVnicAttachments_InstanceID opts;
                ListVnicAttachments_Page := page |} (fst st) (snd st)
      else ret (snd st)
  end.

Definition GetSubnetsForInternalIPs (fuel : nat) (ips : list string)
  : M (list Subnet) :=
  let ipSet := sets.NewString ips in
  subnetsLoop fuel ipSet
    {| ListVnicAttachments_InstanceID := "";
       ListVnicAttachments_Page := {| Page := "" |} |} [] [].

End Subnets.

(** * Statements about the client *)

(** ** Pages served by the backend

    [Paged next fetch cur ps]: asked with cursor [cur] the listing answers
    the first page of [ps], asked with that page's cursor it answers the
    second, and so on; only the last page carries no cursor. *)

Inductive Paged {P : Type} (next : P -> string)
    (fetch : string -> Trace -> error + P) : string -> list P -> Prop :=
| Paged_last cur p :
    (forall h, fetch cur h = inr p) -> next p = "" ->
    Paged next fetch cur [p]
| Paged_more cur p ps :
    (forall h, fetch cur h = inr p) -> next p <> "" ->
    Paged next fetch (next p) ps ->
    Paged next fetch cur (p :: ps).

(** The cursors the calls for [ps] are made with: [cur], then the cursor of
    each page but the last. *)
Fixpoint cursors {P : Type} (next : P -> string) (cur : string)
    (ps : list P) : list string :=
  match ps with
  | [] => []
  | p :: rest => cur :: cursors next (next p) rest
  end.

Definition instanceOpts (name cur : string) : ListInstancesOptions :=
  {| ListInstances_DisplayName := name;
     ListInstances_Page := {| Page := cur |} |}.

Definition attachmentOpts (instanceID cur : string)
  : ListVnicAttachmentsOptions :=
  {| ListVnicAttachments_InstanceID := instanceID;
     ListVnicAttachments_Page := {| Page := cur |} |}.

Definition listOpts (cur : string) : ListOptions :=
  {| ListOptions_Page := {| Page := cur |} |}.

Definition instancePages (c : client) (name : string) :=
  Paged InstancePage_NextPage
    (fun cur h => ListInstances_ (Client c) h (compartmentOCID c)
                    (instanceOpts name cur)).

Definition attachmentPages (c : client) (instanceID : string) :=
  Paged AttachmentPage_NextPage
    (fun cur h => ListVnicAttachments_ (Client c) h (compartmentOCID c)
                    (Some (attachmentOpts instanceID cur))).

Definition loadBalancerPages (c : client) :=
  Paged LoadBalancerPage_NextPage
    (fun cur h => ListLoadBalancers_ (Client c) h (compartmentOCID c)
                    (listOpts cur)).

Definition instanceCalls (c : client) (name cur : string)
    (ps : list InstancePage) : list Call :=
  map (fun cu => CallListInstances (compartmentOCID c) (instanceOpts name cu))
      (cursors InstancePage_NextPage cur ps).

Definition loadBalancerCalls (c : client) (cur : string)
    (ps : list LoadBalancerPage) : list Call :=
  map (fun cu => CallListLoadBalancers (compartmentOCID c) (listOpts cu))
      (cursors LoadBalancerPage_NextPage cur ps).

Definition attachmentCalls (c : client) (instanceID cur : string)
    (ps : list AttachmentPage) : list Call :=
  map (fun cu => CallListVnicAttachments (compartmentOCID c)
                   (Some (attachmentOpts instanceID cu)))
      (cursors AttachmentPage_NextPage cur ps).

(** The calls of the vnic-scan stage: the listing, the vnic of an attached
    attachment, the instance behind a matching vnic. *)
Definition isFallbackCall (ev : Call) : bool :=
  match ev with
  | CallListVnicAttachments _ _ | CallGetVnic _ | CallGetInstance _ => true
  | _ => false
  end.

Definition isListCall (ev : Call) : bool :=
  match ev with
  | CallListInstances _ _ | CallListVnicAttachments _ _
  | CallListLoadBalancers _ _ => true
  | _ => false
  end.

Definition isAttached (a : VnicAttachment) : bool :=
  (VnicAttachment_State a =? ResourceAttached)%string.

Definition isAvailable (v : Vnic) : bool :=
  (Vnic_State v =? ResourceAvailable)%string.

(** ** A snapshot of the cloud: the vnic, instance and subnet behind an id *)

Section Snapshot.

Variable vnicOf : string -> Vnic.
Variable instanceOf : string -> Instance.
Variable subnetOf : string -> Subnet.

(** The vnic of every attached attachment of [atts] can be fetched. *)
Definition servesVnics (c : client) (atts : list VnicAttachment) : Prop :=
  forall a h, In a atts -> isAttached a = true ->
    GetVnic_ (Client c) h (VnicAttachment_VnicID a)
    = inr (vnicOf (VnicAttachment_VnicID a)).

(** The instance behind every attached attachment of [atts] whose vnic
    matches [nodeName] can be fetched. *)
Definition servesInstances (c : client) (nodeName : string)
    (atts : list VnicAttachment) : Prop :=
  forall a h, In a atts -> isAttached a = true ->
    vnicIsNode nodeName (vnicOf (VnicAttachment_VnicID a)) = true ->
    GetInstance_ (Client c) h (VnicAttachment_InstanceID a)
    = inr (instanceOf (VnicAttachment_InstanceID a)).

Definition servesSubnets (c : client) (ids : list string) : Prop :=
  forall id h, In id ids ->
    GetSubnet_ (Client c) h id = inr (subnetOf id).

(** The vnic-scan stage in the words of the specification: of the
    attached attachments whose vnic matches, the owning instances that
    are running. *)
Definition keptInstances (nodeName : string) (atts : list VnicAttachment)
  : list Instance :=
  filter isRunning
    (map (fun a => instanceOf (VnicAttachment_InstanceID a))
       (filter (fun a => isAttached a
                  && vnicIsNode nodeName (vnicOf (VnicAttachment_VnicID a)))
          atts)).

(** The fetches the scan of one page makes. *)
Definition scanCalls (nodeName : string) (atts : list VnicAttachment)
  : list Call :=
  flat_map
    (fun a =>
       if isAttached a
       then CallGetVnic (VnicAttachment_VnicID a)
            :: (if vnicIsNode nodeName (vnicOf (VnicAttachment_VnicID a))
                then [CallGetInstance (VnicAttachment_InstanceID a)]
                else [])
       else [])
    atts.

Fixpoint vnicScanCalls (c : client) (nodeName cur : string)
    (ps : list AttachmentPage) : list Call :=
  match ps with
  | [] => []
  | p :: rest =>
      CallListVnicAttachments (compartmentOCID c)
        (Some (attachmentOpts "" cur))
      :: scanCalls nodeName (Attachments p)
      ++ vnicScanCalls c nodeName (AttachmentPage_NextPage p) rest
  end.

(** The available vnics behind the attached attachments. *)
Definition availableVnics (atts : list VnicAttachment) : list Vnic :=
  filter isAvailable
    (map (fun a => vnicOf (VnicAttachment_VnicID a))
       (filter isAttached atts)).

Definition vnicFetches (atts : list VnicAttachment) : list Call :=
  map (fun a => CallGetVnic (VnicAttachment_VnicID a))
      (filter isAttached atts).

Fixpoint attachedVnicsCalls (c : client) (instanceID cur : string)
    (ps : list AttachmentPage) : list Call :=
  match ps with
  | [] => []
  | p :: rest =>
      CallListVnicAttachments (compartmentOCID c)
        (Some (attachmentOpts instanceID cur))
      :: vnicFetches (Attachments p)
      ++ attachedVnicsCalls c instanceID (AttachmentPage_NextPage p) rest
  end.

(** Subnet resolution in the words of the specification: the subnet ids
    of the attached attachments whose vnic has a private IP of the input
    set, each kept the first time it is seen. *)
Definition hasInternalIP (ips : list string) (v : Vnic) : bool :=
  negb (Vnic_PrivateIPAddress v =? "")%string
  && existsb (String.eqb (Vnic_PrivateIPAddress v)) ips.

Definition touchedSubnetIDs (ips : list string)
    (atts : list VnicAttachment) : list string :=
  map (fun a => Vnic_SubnetID (vnicOf (VnicAttachment_VnicID a)))
    (filter (fun a => isAttached a
               && hasInternalIP ips (vnicOf (VnicAttachment_VnicID a)))
       atts).

End Snapshot.

Fixpoint firstSeen (seen : list string) (ids : list string) : list string :=
  match ids with
  | [] => []
  | id :: rest =>
      if existsb (String.eqb id) seen then firstSeen seen rest
      else id :: firstSeen (id :: seen) rest
  end.

(** The ids of the subnets and of the vnics a trace fetches. *)
Definition subnetFetches (calls : list Call) : list string :=
  flat_map (fun ev => match ev with CallGetSubnet id => [id] | _ => [] end)
           calls.

Definition vnicFetchIDs (calls : list Call) : list string :=
  flat_map (fun ev => match ev with CallGetVnic id => [id] | _ => [] end)
           calls.

(** The test of line 409. *)
Definition named (name : string) (lb : LoadBalancer) : bool :=
  (LoadBalancer_DisplayName lb =? name)%string.

(** The load balancer pages the search reads: up to and with the first
    page that holds a match, all of them when none does. *)
Fixpoint pagesRead (name : string) (ps : list LoadBalancerPage)
  : list LoadBalancerPage :=
  match ps with
  | [] => []
  | p :: rest =>
      match firstNamed name (LoadBalancers p) with
      | Some _ => [p]
      | None => p :: pagesRead name rest
      end
  end.

(** A vnic matches a node name, in the words of the specification. *)
Definition matchesNodeName (nodeName : string) (v : Vnic) : Prop :=
  Vnic_PublicIPAddress v = nodeName
  \/ (Vnic_HostnameLabel v <> ""
      /\ exists rest, nodeName = (Vnic_HostnameLabel v ++ rest)%string).

(** The mutating calls of lines 427-435 and 451-458. *)
Definition createBackendSetCall (lb : LoadBalancer) (bs : BackendSet)
  : Call :=
  CallCreateBackendSet (LoadBalancer_ID lb) (BackendSet_Name bs)
    (BackendSet_Policy bs) (BackendSet_Backends bs)
    (BackendSet_HealthChecker bs) (BackendSet_SSLConfig bs)
    (BackendSet_SessionPersistenceConfig bs).

Definition createListenerCall (lb : LoadBalancer) (listener : Listener)
  : Call :=
  CallCreateListener (LoadBalancer_ID lb) (Listener_Name listener)
    (Listener_DefaultBackendSetName listener) (Listener_Protocol listener)
    (Listener_Port listener) (Listener_SSLConfig listener).

Definition poll (id : string) (n : nat) : list Call :=
  repeat (CallGetWorkRequest id) n.

(** A work request that is neither succeeded nor failed. *)
Definition inProgress (wr : WorkRequest) : Prop :=
  WorkRequest_State wr <> WorkRequestSucceeded
  /\ WorkRequest_State wr <> WorkRequestFailed.

(** ** A small cloud to run the client against *)

Module Example.

Definition demo : string := "ocid1.compartment.demo".
Definition big : string := "ocid1.compartment.big".

Definition web1 : Instance :=
  {| Instance_ID := "ocid1.instance.web1"; Instance_DisplayName := "web-1";
     Instance_State := ResourceRunning |}.
Definition web1old : Instance :=
  {| Instance_ID := "ocid1.instance.web1old";
     Instance_DisplayName := "web-1"; Instance_State := "TERMINATED" |}.
Definition twinA : Instance :=
  {| Instance_ID := "ocid1.instance.twinA"; Instance_DisplayName := "twin";
     Instance_State := ResourceRunning |}.
Definition twinB : Instance :=
  {| Instance_ID := "ocid1.instance.twinB"; Instance_DisplayName := "twin";
     Instance_State := ResourceRunning |}.
Definition db1 : Instance :=
  {| Instance_ID := "ocid1.instance.db1";
     Instance_DisplayName := "database";
     Instance_State := ResourceRunning |}.
Definition gone : Instance :=
  {| Instance_ID := ""; Instance_DisplayName := "";
     Instance_State := "TERMINATED" |}.

Definition att1 : VnicAttachment :=
  {| VnicAttachment_ID := "a1";
     VnicAttachment_InstanceID := "ocid1.instance.web1";
     VnicAttachment_VnicID := "v1";
     VnicAttachment_State := ResourceAttached |}.
Definition att2 : VnicAttachment :=
  {| VnicAttachment_ID := "a2";
     VnicAttachment_InstanceID := "ocid1.instance.db1";
     VnicAttachment_VnicID := "v2";
     VnicAttachment_State := ResourceAttached |}.
Definition att3 : VnicAttachment :=
  {| VnicAttachment_ID := "a3";
     VnicAttachment_InstanceID := "ocid1.instance.db1";
     VnicAttachment_VnicID := "v3";
     VnicAttachment_State := "DETACHED" |}.
Definition att4 : VnicAttachment :=
  {| VnicAttachment_ID := "a4";
     VnicAttachment_InstanceID := "ocid1.instance.web1";
     VnicAttachment_VnicID := "v4";
     VnicAttachment_State := ResourceAttached |}.

Definition v1 : Vnic :=
  {| Vnic_ID := "v1"; Vnic_HostnameLabel := "web-1";
     Vnic_PrivateIPAddress := "10.0.0.5"; Vnic_PublicIPAddress := "";
     Vnic_SubnetID := "s1"; Vnic_State := ResourceAvailable |}.
Definition v2 : Vnic :=
  {| Vnic_ID := "v2"; Vnic_HostnameLabel := "db-1";
     Vnic_PrivateIPAddress := "10.0.0.6";
     Vnic_PublicIPAddress := "129.146.0.7";
     Vnic_SubnetID := "s1"; Vnic_State := ResourceAvailable |}.
Definition v3 : Vnic :=
  {| Vnic_ID := "v3"; Vnic_HostnameLabel := "old";
     Vnic_PrivateIPAddress := "10.0.0.7"; Vnic_PublicIPAddress := "";
     Vnic_SubnetID := "s2"; Vnic_State := ResourceAvailable |}.
Definition v4 : Vnic :=
  {| Vnic_ID := "v4"; Vnic_HostnameLabel := "";
     Vnic_PrivateIPAddress := "10.0.1.9"; Vnic_PublicIPAddress := "";
     Vnic_SubnetID := "s2"; Vnic_State := "TERMINATING" |}.

Definition s1 : Subnet :=
  {| Subnet_ID := "s1"; Subnet_SecurityListIDs := ["sl1"] |}.
Definition s2 : Subnet :=
  {| Subnet_ID := "s2"; Subnet_SecurityListIDs := ["sl2"; "sl3"] |}.

Definition lbOther : LoadBalancer :=
  {| LoadBalancer_ID := "ocid1.lb.0"; LoadBalancer_DisplayName := "other" |}.
Definition lbA : LoadBalancer :=
  {| LoadBalancer_ID := "ocid1.lb.1"; LoadBalancer_DisplayName := "lb-a" |}.
Definition lbA' : LoadBalancer :=
  {| LoadBalancer_ID := "ocid1.lb.2"; LoadBalancer_DisplayName := "lb-a" |}.
Definition lbZ : LoadBalancer :=
  {| LoadBalancer_ID := "ocid1.lb.3"; LoadBalancer_DisplayName := "lb-z" |}.

Definition vnicOf (id : string) : Vnic :=
  if (id =? "v1")%string then v1
  else if (id =? "v2")%string then v2
  else if (id =? "v3")%string then v3
  else v4.

Definition instanceOf (id : string) : Instance :=
  if (id =? "ocid1.instance.web1")%string then web1
  else if (id =? "ocid1.instance.db1")%string then db1
  else gone.

Definition subnetOf (id : string) : Subnet :=
  if (id =? "s1")%string then s1 else s2.

(** How often work request [id] has been polled in [h]. *)
Fixpoint polls (id : string) (h : Trace) : nat :=
  match h with
  | [] => 0
  | CallGetWorkRequest i :: rest =>
      if (i =? id)%string then S (polls id rest) else polls id rest
  | _ :: rest => polls id rest
  end.

Definition workRequest (id state message : string) : WorkRequest :=
  {| WorkRequest_ID := id; WorkRequest_LoadBalancerID := "ocid1.lb.1";
     WorkRequest_State := state; WorkRequest_Message := message |}.

(** The work requests: ["wr-lb"] succeeds at the third poll, ["wr-late"]
    at the sixteenth, ["wr-slow"] never ends, ["wr-bad"] fails at the
    second poll, and the second poll of ["wr-down"] cannot be made. *)
Definition getWorkRequest (h : Trace) (id : string) : error + WorkRequest :=
  let n := polls id h in
  if (id =? "wr-lb")%string then
    inr (workRequest id (if (n <? 2)%nat then WorkRequestInProgress
                         else WorkRequestSucceeded) "")
  else if (id =? "wr-late")%string then
    inr (workRequest id (if (n <? 15)%nat then WorkRequestInProgress
                         else WorkRequestSucceeded) "")
  else if (id =? "wr-slow")%string then
    inr (workRequest id WorkRequestInProgress "")
  else if (id =? "wr-bad")%string then
    inr (if (n <? 1)%nat then workRequest id WorkRequestInProgress ""
         else workRequest id WorkRequestFailed "out of capacity")
  else if (id =? "wr-down")%string then
    if (n <? 1)%nat then inr (workRequest id WorkRequestInProgress "")
    else inl (SdkError "connection reset")
  else inl (SdkError "no such work request").

Definition listInstances (name cur : string) : InstancePage :=
  if (name =? "web-1")%string then
    if (cur =? "")%string
    then {| Instances := [web1old]; InstancePage_NextPage := "i2" |}
    else {| Instances := [web1]; InstancePage_NextPage := "" |}
  else if (name =? "twin")%string then
    {| Instances := [twinA; twinB]; InstancePage_NextPage := "" |}
  else if (name =? "loop")%string then
    {| Instances := []; InstancePage_NextPage := "again" |}
  else {| Instances := []; InstancePage_NextPage := "" |}.

Definition listVnicAttachments (compartment : string)
    (opts : option ListVnicAttachmentsOptions) : AttachmentPage :=
  let cur := match opts with
             | Some o => Page (ListVnicAttachments_Page o)
             | None => ""
             end in
  if (compartment =? big)%string then
    if (cur =? "")%string
    then {| Attachments := [att1]; AttachmentPage_NextPage := "more" |}
    else {| Attachments := [att2]; AttachmentPage_NextPage := "" |}
  else
    match opts with
    | None =>
        {| Attachments := [att1; att2; att3; att4];
           AttachmentPage_NextPage := "" |}
    | Some o =>
        if (ListVnicAttachments_InstanceID o =? "")%string then
          if (cur =? "")%string
          then {| Attachments := [att1; att3];
                  AttachmentPage_NextPage := "a-2" |}
          else {| Attachments := [att2; att4];
                  AttachmentPage_NextPage := "" |}
        else {| Attachments := [att1; att4];
                AttachmentPage_NextPage := "" |}
    end.

Definition listLoadBalancers (cur : string) : LoadBalancerPage :=
  if (cur =? "")%string
  then {| LoadBalancers := [lbOther]; LoadBalancerPage_NextPage := "l2" |}
  else if (cur =? "l2")%string
  then {| LoadBalancers := [lbA; lbA']; LoadBalancerPage_NextPage := "l3" |}
  else {| LoadBalancers := [lbZ]; LoadBalancerPage_NextPage := "" |}.

Definition cloud : Baremetal := {|
  ListInstances_ := fun _ _ opts =>
    inr (listInstances (ListInstances_DisplayName opts)
                       (Page (ListInstances_Page opts)));
  ListVnicAttachments_ := fun _ compartment opts =>
    inr (listVnicAttachments compartment opts);
  ListLoadBalancers_ := fun _ _ opts =>
    inr (listLoadBalancers (Page (ListOptions_Page opts)));
  GetInstance_ := fun _ id => inr (instanceOf id);
  GetVnic_ := fun _ id => inr (vnicOf id);
  GetSubnet_ := fun _ id => inr (subnetOf id);
  GetWorkRequest_ := getWorkRequest;
  CreateLoadBalancer_ := fun _ _ _ _ _ => inr "wr-lb";
  GetLoadBalancer_ := fun _ id =>
    if (id =? "ocid1.lb.1")%string then inr lbA
    else inl (SdkError "no such load balancer");
  CreateBackendSet_ := fun _ _ _ _ _ _ _ _ => inr "wr-lb";
  GetBackendSet_ := fun _ _ name =>
    inr {| BackendSet_Name := name;
           BackendSet_Policy := DefaultLoadBalancerPolicy;
           BackendSet_Backends := [];
           BackendSet_HealthChecker := None;
           BackendSet_SSLConfig := None;
           BackendSet_SessionPersistenceConfig := None |};
  CreateListener_ := fun _ _ _ _ _ _ _ => inr "wr-lb"
|}.

Definition c : client := {| Client := cloud; compartmentOCID := demo |}.

Definition cBig : client := {| Client := cloud; compartmentOCID := big |}.

(** Dotted-quad addresses, to stand for [net.ParseIP] and [IP.String]:
    four decimal fields of at most three digits, none above 255. *)
Definition IPv4 : Type := nat * nat * nat * nat.

Fixpoint splitDots (s : string) (cur : string) : list string :=
  match s with
  | EmptyString => [cur]
  | String ch rest =>
      if Ascii.eqb ch "."%char then cur :: splitDots rest ""
      else splitDots rest (cur ++ String ch "")%string
  end.

Definition field (s : string) : option nat :=
  if ((String.length s =? 0) || (3 <? String.length s))%nat then None
  else
    match NilEmpty.uint_of_string s with
    | Some u => let n := Nat.of_uint u in
                if (n <=? 255)%nat then Some n else None
    | None => None
    end.

Definition parseIPv4 (s : string) : option IPv4 :=
  match map field (splitDots s "") with
  | [Some a; Some b; Some c; Some d] => Some (a, b, c, d)
  | _ => None
  end.

Definition showField (n : nat) : string :=
  match n with
  | O => "0"
  | _ => NilEmpty.string_of_uint (Nat.to_uint n)
  end.

Definition showIPv4 (ip : IPv4) : string :=
  let '(a, b, c, d) := ip in
  (showField a ++ "." ++ showField b ++ "." ++ showField c ++ "."
   ++ showField d)%string.

End Example.

(** * The rest of the client *)

(** ** GetSubnets, lines 507-517 *)

Section MoreSubnets.

Variable c : client.

(** The [for _, ocid := range ocids] of lines 509-515. *)
Fixpoint getSubnetsFrom (subnets : list Subnet) (ocids : list string)
  : M (list Subnet) :=
  match ocids with
  | [] => ret subnets
  | ocid :: rest =>
      subnet <- GetSubnet c ocid ;;
      getSubnetsFrom (subnets ++ [subnet]) rest
  end.

Definition GetSubnets (ocids : list string) : M (list Subnet) :=
  getSubnetsFrom [] ocids.

End MoreSubnets.

(** ** GetDefaultSecurityList, lines 522-540

    The method only calls [GetSecurityList]; its calls are recorded as the
    list of the ids fetched, and an answer may depend on the ids fetched
    before.  [TimeCreated] is an instant, in nanoseconds. *)

Module SecurityLists.

Record SecurityList := {
  SecurityList_ID : string;
  SecurityList_TimeCreated : Z
}.

Definition Fetched := list string.

Definition GetSecurityList_ := Fetched -> string -> error + SecurityList.

(** [lists[i].TimeCreated.Before(lists[j].TimeCreated.Time)], the [less]
    of lines 536-538. *)
Definition Before (a b : SecurityList) : bool :=
  (SecurityList_TimeCreated a <? SecurityList_TimeCreated b)%Z.

Section Method.

Variable get : GetSecurityList_.

(** [sort.Slice] of Go's standard library, taken as given. *)
Variable sortSlice :
  (SecurityList -> SecurityList -> bool) -> list SecurityList ->
  list SecurityList.

(** The [for _, id := range subnet.SecurityListIDs] of lines 524-530. *)
Fixpoint fetchLists (lists : list SecurityList) (ids : list string)
    (h : Fetched) : outcome (list SecurityList) * Fetched :=
  match ids with
  | [] => (Returned lists, h)
  | id :: rest =>
      match get h id with
      | inl e => (Failed e, h ++ [id])
      | inr list => fetchLists (lists ++ [list]) rest (h ++ [id])
      end
  end.

(** [len(lists) < 1] is the empty slice; [sort.Slice] sorts in place, so
    the slice keeps its length and [lists[0]] is the head after the sort. *)
Definition GetDefaultSecurityList (subnet : Subnet) (h : Fetched)
  : outcome SecurityList * Fetched :=
  match fetchLists [] (Subnet_SecurityListIDs subnet) h with
  | (Returned lists, h') =>
      match lists with
      | [] =>
          (Failed (Errorf "no SecurityLists found for Subnet '%s'"
                          [OpString (Subnet_ID subnet)]), h')
      | oldest :: _ =>
          (Returned (hd oldest (sortSlice Before lists)), h')
      end
  | (Failed e, h') => (Failed e, h')
  | (OutOfFuel, h') => (OutOfFuel, h')
  end.

End Method.

(** What [sort.Slice] promises: the same elements, none of them before an
    earlier one by [less]; equal elements may come in any order. *)
Definition Sorts
    (sortSlice : (SecurityList -> SecurityList -> bool) ->
                 list SecurityList -> list SecurityList) : Prop :=
  forall l,
    Permutation l (sortSlice Before l)
    /\ StronglySorted (fun a b => Before b a = false) (sortSlice Before l).

(** An insertion sort, to stand for [sort.Slice]. *)
Fixpoint insert (less : SecurityList -> SecurityList -> bool)
    (x : SecurityList) (l : list SecurityList) : list SecurityList :=
  match l with
  | [] => [x]
  | y :: rest => if less y x then y :: insert less x rest else x :: l
  end.

Fixpoint insertionSort (less : SecurityList -> SecurityList -> bool)
    (l : list SecurityList) : list SecurityList :=
  match l with
  | [] => []
  | x :: rest => insert less x (insertionSort less rest)
  end.

Definition listOf (id : string) : SecurityList :=
  if (id =? "sl2")%string
  then {| SecurityList_ID := "sl2"; SecurityList_TimeCreated := 200 |}
  else if (id =? "sl3")%string
  then {| SecurityList_ID := "sl3"; SecurityList_TimeCreated := 100 |}
  else {| SecurityList_ID := id; SecurityList_TimeCreated := 300 |}.

Definition getExample : GetSecurityList_ := fun _ id => inr (listOf id).

End SecurityLists.

(** ** Statements about the rest *)

(** The listing answers the pages [ps] in turn and then fails with [e]. *)
Inductive PagedThenFails {P : Type} (next : P -> string)
    (fetch : string -> Trace -> error + P)
  : string -> list P -> error -> Prop :=
| Fails_now cur e :
    (forall h, fetch cur h = inl e) ->
    PagedThenFails next fetch cur [] e
| Fails_later cur p ps e :
    (forall h, fetch cur h = inr p) -> next p <> "" ->
    PagedThenFails next fetch (next p) ps e ->
    PagedThenFails next fetch cur (p :: ps) e.

(** The listing answers the pages [ps] in turn, each with a cursor; what
    comes after them is left open. *)
Inductive PagedPrefix {P : Type} (next : P -> string)
    (fetch : string -> Trace -> error + P) : string -> list P -> Prop :=
| Prefix_nil cur : PagedPrefix next fetch cur []
| Prefix_cons cur p ps :
    (forall h, fetch cur h = inr p) -> next p <> "" ->
    PagedPrefix next fetch (next p) ps ->
    PagedPrefix next fetch cur (p :: ps).

(** The cursor in hand after the pages [ps]. *)
Definition cursorAfter {P : Type} (next : P -> string) (cur : string)
    (ps : list P) : string :=
  fold_left (fun _ p => next p) ps cur.

(** A run that only appends calls satisfying [ok], and whose result, when
    there is one, satisfies [good]. *)
Definition Run {A} (ok : Call -> bool) (good : A -> Prop)
    (r : outcome A * Trace) (h : Trace) : Prop :=
  exists calls,
    snd r = h ++ calls /\ forallb ok calls = true
    /\ forall a, fst r = Returned a -> good a.

(** The calls GetInstanceByNodeName may make. *)
Definition isInstanceLookup (ev : Call) : bool :=
  match ev with
  | CallListInstances _ _ | CallListVnicAttachments _ _
  | CallGetVnic _ | CallGetInstance _ => true
  | _ => false
  end.

(** The calls GetAttachedVnicsForInstance may make for instance [id] in
    [compartment]. *)
Definition isVnicLookupFor (compartment id : string) (ev : Call) : bool :=
  match ev with
  | CallListVnicAttachments cmp (Some opts) =>
      (cmp =? compartment)%string
      && (ListVnicAttachments_InstanceID opts =? id)%string
  | CallGetVnic _ => true
  | _ => false
  end.

Definition isLoadBalancerListing (compartment : string) (ev : Call) : bool :=
  match ev with
  | CallListLoadBalancers cmp _ => (cmp =? compartment)%string
  | _ => false
  end.

(** The calls that read the page [p] the listing without options answers:
    that listing, the vnic of an Attached attachment of [p], a subnet. *)
Definition isFirstPageCall (compartment : string) (p : AttachmentPage)
    (ev : Call) : bool :=
  match ev with
  | CallListVnicAttachments cmp None => (cmp =? compartment)%string
  | CallGetVnic id =>
      existsb (fun a => isAttached a
                 && (VnicAttachment_VnicID a =? id)%string)
              (Attachments p)
  | CallGetSubnet _ => true
  | _ => false
  end.

(** ** The waits of the backoff

    Modelled from the spec: [wait.ExponentialBackoff] waits between two
    attempts and not before the first.  The interval starts at [Duration]
    and is multiplied by [Factor] after each wait, in whole nanoseconds as
    [time.Duration] counts them; the time waited is the interval changed
    by a random amount of at most [Jitter] times the interval. *)
Fixpoint intervals (n : nat) (duration : Z) (factor : Q) : list Z :=
  match n with
  | O => []
  | S n' =>
      duration :: intervals n' (Qfloor (inject_Z duration * factor)) factor
  end.

Definition waitsBetween (b : wait.Backoff) (attempts : nat) : list Z :=
  intervals (attempts - 1) (wait.Duration b) (wait.Factor b).

(** The least and the greatest time waited for an interval. *)
Definition jitterBand (b : wait.Backoff) (interval : Z) : Q * Q :=
  ((inject_Z interval - wait.Jitter b * inject_Z interval)%Q,
   (inject_Z interval + wait.Jitter b * inject_Z interval)%Q).

(** The polls AwaitWorkRequest makes from [h], and the intervals it waits
    between them. *)
Definition attempts (c : client) (id : string) (h : Trace) : nat :=
  List.length (snd (AwaitWorkRequest c id h)) - List.length h.

Definition AwaitWorkRequest_intervals (c : client) (id : string)
    (h : Trace) : list Z :=
  waitsBetween backoff (attempts c id h).

Section Addresses.

Variable IP : Type.
Variable ParseIP : string -> option IP.
Variable IPString : IP -> string.

(** An address field is well formed when it is empty or parses. *)
Definition wellFormed (s : string) : Prop :=
  s = "" \/ ParseIP s <> None.

(** It is malformed when it is there and does not parse. *)
Definition malformed (s : string) : Prop :=
  s <> "" /\ ParseIP s = None.

Definition wellFormedVnic (v : Vnic) : Prop :=
  wellFormed (Vnic_PrivateIPAddress v)
  /\ wellFormed (Vnic_PublicIPAddress v).

(** The record of one address field: none for an empty field. *)
Definition addressOf (type s : string) : list NodeAddress :=
  if (s =? "")%string then []
  else match ParseIP s with
       | Some ip => [{| NodeAddress_Type := type;
                        NodeAddress_Address := IPString ip |}]
       | None => []
       end.

Definition addressesOf (v : Vnic) : list NodeAddress :=
  addressOf NodeInternalIP (Vnic_PrivateIPAddress v)
  ++ addressOf NodeExternalIP (Vnic_PublicIPAddress v).

End Addresses.

(** A cloud where things go wrong: the second page of instances and vnic
    ["v2"] cannot be read, subnet ["s2"] neither, the load balancer cannot
    be created, the work request of a backend set fails and the one of a
    listener never ends. *)
Module Broken.

Definition cloud : Baremetal := {|
  ListInstances_ := fun _ _ opts =>
    if (Page (ListInstances_Page opts) =? "")%string
    then inr (Example.listInstances (ListInstances_DisplayName opts) "")
    else inl (SdkError "request timed out");
  ListVnicAttachments_ := ListVnicAttachments_ Example.cloud;
  ListLoadBalancers_ := fun _ _ _ => inl (SdkError "service unavailable");
  GetInstance_ := GetInstance_ Example.cloud;
  GetVnic_ := fun _ id =>
    if (id =? "v2")%string then inl (SdkError "vnic not found")
    else inr (Example.vnicOf id);
  GetSubnet_ := fun _ id =>
    if (id =? "s2")%string then inl (SdkError "subnet not found")
    else inr (Example.subnetOf id);
  GetWorkRequest_ := Example.getWorkRequest;
  CreateLoadBalancer_ := fun _ _ _ _ _ => inl (SdkError "limit exceeded");
  GetLoadBalancer_ := GetLoadBalancer_ Example.cloud;
  CreateBackendSet_ := fun _ _ _ _ _ _ _ _ => inr "wr-bad";
  GetBackendSet_ := GetBackendSet_ Example.cloud;
  CreateListener_ := fun _ _ _ _ _ _ _ => inr "wr-slow"
|}.

Definition c : client :=
  {| Client := cloud; compartmentOCID := Example.demo |}.

End Broken.

(** * Proofs *)

(** ** The monad and the cursor *)

Lemma bind_call {A B} ev (answer : Trace -> error + A) (k : A -> M B) h a :
  answer h = inr a ->
  (x <- call ev answer ;; k x) h = k a (h ++ [ev]).
Proof. intros E. unfold bind, call. now rewrite E. Qed.

Lemma bind_call_failed {A B} ev (answer : Trace -> error + A) (k : A -> M B)
    h e :
  answer h = inl e ->
  (x <- call ev answer ;; k x) h = (Failed e, h ++ [ev]).
Proof. intros E. unfold bind, call. now rewrite E. Qed.

Lemma bind_returned {A B} (m : M A) (k : A -> M B) h a h' :
  m h = (Returned a, h') -> (x <- m ;; k x) h = k a h'.
Proof. intros E. unfold bind. now rewrite E. Qed.

Lemma bind_failed {A B} (m : M A) (k : A -> M B) h e h' :
  m h = (Failed e, h') -> (x <- m ;; k x) h = (Failed e, h').
Proof. intros E. unfold bind. now rewrite E. Qed.

Lemma SetNextPageOption_last opts :
  SetNextPageOption "" opts = (false, opts).
Proof. reflexivity. Qed.

Lemma SetNextPageOption_more next opts :
  next <> "" -> SetNextPageOption next opts = (true, {| Page := next |}).
Proof.
  intros N. unfold SetNextPageOption.
  destruct (String.eqb_spec next ""); [contradiction | reflexivity].
Qed.

Lemma cursors_length {P} (next : P -> string) ps :
  forall cur, List.length (cursors next cur ps) = List.length ps.
Proof. induction ps as [|p ps IH]; intros cur; simpl; auto. Qed.

(** ** GetInstanceByNodeName: the display-name stage *)

Lemma appendRunning_filter l : forall running,
  appendRunning running l = running ++ filter isRunning l.
Proof.
  induction l as [|i l IH]; intros running; simpl.
  - now rewrite app_nil_r.
  - destruct (isRunning i); rewrite IH;
      [now rewrite <- app_assoc | reflexivity].
Qed.

Lemma listInstancesLoop_pages c name ps : forall cur running h fuel,
  instancePages c name cur ps -> List.length ps <= fuel ->
  listInstancesLoop c fuel (instanceOpts name cur) running h =
  (Returned (running ++ filter isRunning (flat_map Instances ps)),
   h ++ instanceCalls c name cur ps).
Proof.
  induction ps as [|p ps IH]; intros cur running h fuel HP Hf.
  - inversion HP.
  - destruct fuel as [|fuel]; [simpl in Hf; lia|].
    simpl listInstancesLoop. unfold ListInstances.
    inversion HP as [cur' p' Hfetch Hnext | cur' p' ps' Hfetch Hnext Hrest];
      subst; rewrite (bind_call _ _ _ _ p) by apply Hfetch.
    + rewrite Hnext, SetNextPageOption_last. unfold ret. simpl.
      now rewrite appendRunning_filter, app_nil_r.
    + rewrite SetNextPageOption_more by assumption.
      simpl ListInstances_DisplayName.
      fold (instanceOpts name (InstancePage_NextPage p)).
      rewrite IH by (assumption || (simpl in Hf; lia)).
      rewrite appendRunning_filter. simpl.
      now rewrite filter_app, <- !app_assoc.
Qed.

Lemma instanceCalls_no_fallback c name ps : forall cur,
  filter isFallbackCall (instanceCalls c name cur ps) = [].
Proof.
  unfold instanceCalls. induction ps as [|p ps IH]; intros cur; simpl; auto.
Qed.

Lemma instanceCalls_length c name cur ps :
  List.length (instanceCalls c name cur ps) = List.length ps.
Proof. unfold instanceCalls. now rewrite length_map, cursors_length. Qed.

Lemma GetInstanceByNodeName_stage1 c nodeName ps fuel h :
  nodeName <> "" ->
  instancePages c nodeName "" ps -> List.length ps <= fuel ->
  GetInstanceByNodeName c fuel nodeName h =
  match filter isRunning (flat_map Instances ps) with
  | [] => findInstanceByNodeNameIsVnic c fuel nodeName
  | [i] => ret i
  | running =>
      fail (Errorf "expected one instance with display name '%s' but got %d"
                   [OpString nodeName; OpInt (List.length running)])
  end (h ++ instanceCalls c nodeName "" ps).
Proof.
  intros Hn HP Hf. unfold GetInstanceByNodeName.
  destruct (String.eqb_spec nodeName ""); [contradiction|].
  fold (instanceOpts nodeName "").
  erewrite bind_returned by (apply listInstancesLoop_pages; eassumption).
  cbn [app].
  now destruct (filter isRunning (flat_map Instances ps)) as [|i [|j l]].
Qed.

(** C2.  When the display-name listing of a non-blank node name yields
    exactly one Running instance, GetInstanceByNodeName returns that
    instance; its calls are the listing calls, one per page, and none of
    them belongs to the vnic-scan stage. *)
Theorem GetInstanceByNodeName_one_running c nodeName ps i fuel h :
  nodeName <> "" ->
  instancePages c nodeName "" ps ->
  filter isRunning (flat_map Instances ps) = [i] ->
  List.length ps <= fuel ->
  GetInstanceByNodeName c fuel nodeName h
  = (Returned i, h ++ instanceCalls c nodeName "" ps)
  /\ filter isFallbackCall (instanceCalls c nodeName "" ps) = []
  /\ List.length (instanceCalls c nodeName "" ps) = List.length ps.
Proof.
  intros Hn HP Hone Hf. split; [|split].
  - rewrite (GetInstanceByNodeName_stage1 c nodeName ps) by assumption.
    now rewrite Hone.
  - apply instanceCalls_no_fallback.
  - apply instanceCalls_length.
Qed.

Lemma GetInstanceByNodeName_one_running_witness :
  GetInstanceByNodeName Example.c 2 "web-1" []
  = (Returned Example.web1,
     [] ++ instanceCalls Example.c "web-1" ""
             [Example.listInstances "web-1" "";
              Example.listInstances "web-1" "i2"])
  /\ filter isFallbackCall
       (instanceCalls Example.c "web-1" ""
          [Example.listInstances "web-1" "";
           Example.listInstances "web-1" "i2"]) = []
  /\ List.length
       (instanceCalls Example.c "web-1" ""
          [Example.listInstances "web-1" "";
           Example.listInstances "web-1" "i2"]) = 2.
Proof.
  apply (GetInstanceByNodeName_one_running Example.c "web-1"
           [Example.listInstances "web-1" "";
            Example.listInstances "web-1" "i2"] Example.web1 2 []).
  - discriminate.
  - apply Paged_more; [reflexivity | discriminate |].
    apply Paged_last; reflexivity.
  - reflexivity.
  - simpl. lia.
Defined.

(** C3.  When the display-name stage of a non-blank node name yields two or
    more Running instances, GetInstanceByNodeName fails with the error that
    reports their number, and none of its calls belongs to the vnic-scan
    stage. *)
Theorem GetInstanceByNodeName_ambiguous c nodeName ps fuel h :
  nodeName <> "" ->
  instancePages c nodeName "" ps ->
  2 <= List.length (filter isRunning (flat_map Instances ps)) ->
  List.length ps <= fuel ->
  GetInstanceByNodeName c fuel nodeName h
  = (Failed
       (Errorf "expected one instance with display name '%s' but got %d"
          [OpString nodeName;
           OpInt (List.length (filter isRunning (flat_map Instances ps)))]),
     h ++ instanceCalls c nodeName "" ps)
  /\ filter isFallbackCall (instanceCalls c nodeName "" ps) = [].
Proof.
  intros Hn HP Htwo Hf. split; [|apply instanceCalls_no_fallback].
  rewrite (GetInstanceByNodeName_stage1 c nodeName ps) by assumption.
  destruct (filter isRunning (flat_map Instances ps)) as [|i [|j l]];
    simpl in Htwo; try lia.
  reflexivity.
Qed.

Lemma GetInstanceByNodeName_ambiguous_witness :
  GetInstanceByNodeName Example.c 1 "twin" []
  = (Failed
       (Errorf "expected one instance with display name '%s' but got %d"
          [OpString "twin"; OpInt 2]),
     [CallListInstances Example.demo (instanceOpts "twin" "")])
  /\ filter isFallbackCall
       (instanceCalls Example.c "twin" "" [Example.listInstances "twin" ""])
     = [].
Proof.
  apply (GetInstanceByNodeName_ambiguous Example.c "twin"
           [Example.listInstances "twin" ""] 1 []).
  - discriminate.
  - apply Paged_last; reflexivity.
  - simpl. lia.
  - simpl. lia.
Defined.

(** ** findInstanceByNodeNameIsVnic: the vnic-scan stage *)

Lemma prefix_app p : forall s,
  String.prefix p s = true <-> exists rest, s = (p ++ rest)%string.
Proof.
  induction p as [|a p IH]; intros s; simpl.
  - split; [intros _; now exists s | intros _; now destruct s].
  - destruct s as [|b s].
    + split; [discriminate | intros [rest H]; discriminate].
    + simpl. destruct (Ascii.ascii_dec a b) as [->|N].
      * rewrite IH. split; intros [rest H]; exists rest;
          [now rewrite H | now inversion H].
      * split; [discriminate | intros [rest H]; congruence].
Qed.

Lemma vnicIsNode_matches nodeName v :
  vnicIsNode nodeName v = true <-> matchesNodeName nodeName v.
Proof.
  unfold vnicIsNode, matchesNodeName.
  rewrite orb_true_iff, andb_true_iff, negb_true_iff, String.eqb_eq,
    String.eqb_neq, prefix_app.
  reflexivity.
Qed.

Section ScanProofs.

Variable vnicOf : string -> Vnic.
Variable instanceOf : string -> Instance.
Variable c : client.

Lemma servesVnics_app a b :
  servesVnics vnicOf c (a ++ b) ->
  servesVnics vnicOf c a /\ servesVnics vnicOf c b.
Proof.
  intros H; split; intros x h Hin; apply H; apply in_or_app; auto.
Qed.

Lemma servesInstances_app nodeName a b :
  servesInstances vnicOf instanceOf c nodeName (a ++ b) ->
  servesInstances vnicOf instanceOf c nodeName a
  /\ servesInstances vnicOf instanceOf c nodeName b.
Proof.
  intros H; split; intros x h Hin; apply H; apply in_or_app; auto.
Qed.

Lemma keptInstances_app nodeName a b :
  keptInstances vnicOf instanceOf nodeName (a ++ b)
  = keptInstances vnicOf instanceOf nodeName a
    ++ keptInstances vnicOf instanceOf nodeName b.
Proof.
  unfold keptInstances. now rewrite filter_app, map_app, filter_app.
Qed.

Lemma scanAttachments_kept nodeName atts : forall running h,
  servesVnics vnicOf c atts ->
  servesInstances vnicOf instanceOf c nodeName atts ->
  scanAttachments c nodeName running atts h
  = (Returned (running ++ keptInstances vnicOf instanceOf nodeName atts),
     h ++ scanCalls vnicOf nodeName atts).
Proof.
  induction atts as [|a atts IH]; intros running h HV HI.
  - unfold keptInstances. simpl. unfold ret. now rewrite !app_nil_r.
  - destruct (servesVnics_app [a] atts HV) as [HVa HVr].
    destruct (servesInstances_app nodeName [a] atts HI) as [HIa HIr].
    change (keptInstances vnicOf instanceOf nodeName (a :: atts))
      with (keptInstances vnicOf instanceOf nodeName ([a] ++ atts)).
    rewrite keptInstances_app.
    unfold keptInstances at 1. simpl.
    change (VnicAttachment_State a =? ResourceAttached)%string
      with (isAttached a).
    destruct (isAttached a) eqn:Ea; simpl.
    + unfold GetVnic.
      rewrite (bind_call _ _ _ _ (vnicOf (VnicAttachment_VnicID a)))
        by (apply HVa; simpl; auto).
      destruct (vnicIsNode nodeName (vnicOf (VnicAttachment_VnicID a)))
        eqn:Em; simpl.
      * unfold GetInstance.
        rewrite (bind_call _ _ _ _
                   (instanceOf (VnicAttachment_InstanceID a)))
          by (apply HIa; simpl; auto).
        destruct (isRunning (instanceOf (VnicAttachment_InstanceID a)));
          rewrite IH by assumption; simpl;
          now rewrite <- !app_assoc.
      * rewrite IH by assumption. now rewrite <- !app_assoc.
    + now rewrite IH by assumption.
Qed.

Lemma vnicScanLoop_pages nodeName ps : forall cur running h fuel,
  attachmentPages c "" cur ps ->
  servesVnics vnicOf c (flat_map Attachments ps) ->
  servesInstances vnicOf instanceOf c nodeName (flat_map Attachments ps) ->
  List.length ps <= fuel ->
  vnicScanLoop c fuel nodeName (attachmentOpts "" cur) running h
  = (Returned (running ++ keptInstances vnicOf instanceOf nodeName
                            (flat_map Attachments ps)),
     h ++ vnicScanCalls vnicOf c nodeName cur ps).
Proof.
  induction ps as [|p ps IH]; intros cur running h fuel HP HV HI Hf.
  - inversion HP.
  - destruct fuel as [|fuel]; [simpl in Hf; lia|].
    simpl flat_map in *.
    destruct (servesVnics_app _ _ HV) as [HVp HVr].
    destruct (servesInstances_app _ _ _ HI) as [HIp HIr].
    simpl vnicScanLoop. unfold ListVnicAttachments.
    inversion HP as [cur' p' Hfetch Hnext | cur' p' ps' Hfetch Hnext Hrest];
      subst; rewrite (bind_call _ _ _ _ p) by apply Hfetch;
      erewrite bind_returned
        by (apply scanAttachments_kept; eassumption).
    + rewrite Hnext, SetNextPageOption_last. unfold ret. simpl.
      now rewrite !app_nil_r, <- app_assoc.
    + rewrite SetNextPageOption_more by assumption.
      simpl ListVnicAttachments_InstanceID.
      fold (attachmentOpts "" (AttachmentPage_NextPage p)).
      rewrite IH by (assumption || (simpl in Hf; lia)).
      rewrite keptInstances_app. simpl.
      now rewrite <- !app_assoc.
Qed.

Lemma vnicScanCalls_listing nodeName ps : forall cur,
  filter isListCall (vnicScanCalls vnicOf c nodeName cur ps)
  = attachmentCalls c "" cur ps.
Proof.
  assert (Hscan : forall atts,
             filter isListCall (scanCalls vnicOf nodeName atts) = []).
  { induction atts as [|a atts IHa]; simpl; auto.
    rewrite filter_app, IHa, app_nil_r.
    destruct (isAttached a); simpl; auto.
    now destruct (vnicIsNode nodeName _). }
  unfold attachmentCalls.
  induction ps as [|p ps IH]; intros cur; simpl; auto.
  now rewrite filter_app, Hscan, IH.
Qed.

(** *** GetAttachedVnicsForInstance *)

Lemma availableVnics_app a b :
  availableVnics vnicOf (a ++ b)
  = availableVnics vnicOf a ++ availableVnics vnicOf b.
Proof.
  unfold availableVnics. now rewrite filter_app, map_app, filter_app.
Qed.

Lemma collectVnics_available atts : forall vnics h,
  servesVnics vnicOf c atts ->
  collectVnics c vnics atts h
  = (Returned (vnics ++ availableVnics vnicOf atts),
     h ++ vnicFetches atts).
Proof.
  induction atts as [|a atts IH]; intros vnics h HV.
  - unfold availableVnics, vnicFetches. simpl. unfold ret.
    now rewrite !app_nil_r.
  - destruct (servesVnics_app [a] atts HV) as [HVa HVr].
    change (a :: atts) with ([a] ++ atts) at 2.
    rewrite availableVnics_app.
    unfold availableVnics at 1, vnicFetches. simpl.
    change (VnicAttachment_State a =? ResourceAttached)%string
      with (isAttached a).
    destruct (isAttached a) eqn:Ea; simpl.
    + unfold GetVnic.
      rewrite (bind_call _ _ _ _ (vnicOf (VnicAttachment_VnicID a)))
        by (apply HVa; simpl; auto).
      change (Vnic_State (vnicOf (VnicAttachment_VnicID a))
              =? ResourceAvailable)%string
        with (isAvailable (vnicOf (VnicAttachment_VnicID a))).
      destruct (isAvailable (vnicOf (VnicAttachment_VnicID a)));
        simpl; rewrite IH by assumption; unfold vnicFetches;
        now rewrite <- !app_assoc.
    + now rewrite IH by assumption.
Qed.

Lemma attachedVnicsLoop_pages id ps : forall cur vnics h fuel,
  attachmentPages c id cur ps ->
  servesVnics vnicOf c (flat_map Attachments ps) ->
  List.length ps <= fuel ->
  attachedVnicsLoop c fuel (attachmentOpts id cur) vnics h
  = (Returned (vnics ++ availableVnics vnicOf (flat_map Attachments ps)),
     h ++ attachedVnicsCalls c id cur ps).
Proof.
  induction ps as [|p ps IH]; intros cur vnics h fuel HP HV Hf.
  - inversion HP.
  - destruct fuel as [|fuel]; [simpl in Hf; lia|].
    simpl flat_map in *.
    destruct (servesVnics_app _ _ HV) as [HVp HVr].
    simpl attachedVnicsLoop. unfold ListVnicAttachments.
    inversion HP as [cur' p' Hfetch Hnext | cur' p' ps' Hfetch Hnext Hrest];
      subst; rewrite (bind_call _ _ _ _ p) by apply Hfetch;
      erewrite bind_returned
        by (apply collectVnics_available; eassumption).
    + rewrite Hnext, SetNextPageOption_last. unfold ret. simpl.
      now rewrite !app_nil_r, <- app_assoc.
    + rewrite SetNextPageOption_more by assumption.
      simpl ListVnicAttachments_InstanceID.
      fold (attachmentOpts id (AttachmentPage_NextPage p)).
      rewrite IH by (assumption || (simpl in Hf; lia)).
      rewrite availableVnics_app. simpl.
      now rewrite <- !app_assoc.
Qed.

Lemma attachedVnicsCalls_listing id ps : forall cur,
  filter isListCall (attachedVnicsCalls c id cur ps)
  = attachmentCalls c id cur ps.
Proof.
  assert (Hfetch : forall atts,
             filter isListCall (vnicFetches atts) = []).
  { unfold vnicFetches. intros atts.
    induction (filter isAttached atts) as [|a l IHa]; simpl; auto. }
  unfold attachmentCalls.
  induction ps as [|p ps IH]; intros cur; simpl; auto.
  now rewrite filter_app, Hfetch, IH.
Qed.

End ScanProofs.

(** C4.  In the vnic-scan stage a vnic matches the node name iff its public
    IP equals the node name or its hostname label is non-empty and a prefix
    of the node name.  Over the pages of attachments, the vnic of every
    Attached attachment is fetched, the owning instance of every match is
    fetched and kept if Running; no kept instance fails with the search
    error whose not-found flag is set, one is returned, two or more fail
    with the error that reports their number. *)
Theorem findInstanceByNodeNameIsVnic_scan vnicOf instanceOf c nodeName ps
    fuel h :
  attachmentPages c "" "" ps ->
  servesVnics vnicOf c (flat_map Attachments ps) ->
  servesInstances vnicOf instanceOf c nodeName (flat_map Attachments ps) ->
  List.length ps <= fuel ->
  (forall v, vnicIsNode nodeName v = true <-> matchesNodeName nodeName v)
  /\ findInstanceByNodeNameIsVnic c fuel nodeName h
     = (match keptInstances vnicOf instanceOf nodeName
                (flat_map Attachments ps) with
        | [] =>
            Failed (SearchError
                      (Sprintf "could not find instance for node name %q"
                               [OpString nodeName])
                      true)
        | [i] => Returned i
        | kept =>
            Failed (Errorf
                      "expected one instance vnic ip/hostname %q but got %d"
                      [OpString nodeName; OpInt (List.length kept)])
        end,
        h ++ vnicScanCalls vnicOf c nodeName "" ps).
Proof.
  intros HP HV HI Hf. split; [intros v; apply vnicIsNode_matches|].
  unfold findInstanceByNodeNameIsVnic.
  fold (attachmentOpts "" "").
  erewrite bind_returned by (apply vnicScanLoop_pages; eassumption).
  cbn [app].
  now destruct (keptInstances vnicOf instanceOf nodeName
                  (flat_map Attachments ps)) as [|i [|j l]].
Qed.

Lemma findInstanceByNodeNameIsVnic_scan_witness :
  (forall v, vnicIsNode "db-1.ad1.k8sdns.oraclevcn.com" v = true
             <-> matchesNodeName "db-1.ad1.k8sdns.oraclevcn.com" v)
  /\ findInstanceByNodeNameIsVnic Example.c 2
       "db-1.ad1.k8sdns.oraclevcn.com" []
     = (Returned Example.db1,
        [CallListVnicAttachments Example.demo (Some (attachmentOpts "" ""));
         CallGetVnic "v1";
         CallListVnicAttachments Example.demo
           (Some (attachmentOpts "" "a-2"));
         CallGetVnic "v2"; CallGetInstance "ocid1.instance.db1";
         CallGetVnic "v4"]).
Proof.
  apply (findInstanceByNodeNameIsVnic_scan Example.vnicOf Example.instanceOf
           Example.c "db-1.ad1.k8sdns.oraclevcn.com"
           [Example.listVnicAttachments Example.demo
              (Some (attachmentOpts "" ""));
            Example.listVnicAttachments Example.demo
              (Some (attachmentOpts "" "a-2"))] 2 []).
  - apply Paged_more; [reflexivity | discriminate |].
    apply Paged_last; reflexivity.
  - intros a h _ _. reflexivity.
  - intros a h _ _ _. reflexivity.
  - simpl. lia.
Defined.

(** ** GetLoadBalancerByName *)

Lemma firstNamed_find name lbs : firstNamed name lbs = find (named name) lbs.
Proof.
  induction lbs as [|lb lbs IH]; simpl; auto.
  unfold named at 1. now rewrite IH.
Qed.

Lemma find_app_first {A} (f : A -> bool) a b :
  find f (a ++ b) = match find f a with Some x => Some x | None => find f b end.
Proof.
  induction a as [|x a IH]; simpl; auto. now destruct (f x).
Qed.

Lemma loadBalancerLoop_pages c name ps : forall cur h fuel,
  loadBalancerPages c cur ps -> List.length ps <= fuel ->
  loadBalancerLoop c fuel name (listOpts cur) h
  = (match find (named name) (flat_map LoadBalancers ps) with
     | Some lb => Returned lb
     | None =>
         Failed (SearchError
                   (Sprintf "could not find load balancer with name '%s'"
                            [OpString name])
                   true)
     end,
     h ++ loadBalancerCalls c cur (pagesRead name ps)).
Proof.
  unfold loadBalancerCalls.
  induction ps as [|p ps IH]; intros cur h fuel HP Hf.
  - inversion HP.
  - destruct fuel as [|fuel]; [simpl in Hf; lia|].
    simpl loadBalancerLoop. unfold ListLoadBalancers.
    simpl flat_map. rewrite find_app_first, <- firstNamed_find.
    simpl pagesRead.
    inversion HP as [cur' p' Hfetch Hnext | cur' p' ps' Hfetch Hnext Hrest];
      subst; rewrite (bind_call _ _ _ _ p) by apply Hfetch;
      destruct (firstNamed name (LoadBalancers p)) as [lb|]; try reflexivity.
    + rewrite Hnext, SetNextPageOption_last. reflexivity.
    + rewrite SetNextPageOption_more by assumption.
      fold (listOpts (LoadBalancerPage_NextPage p)).
      rewrite IH by (assumption || (simpl in Hf; lia)).
      simpl. now rewrite <- app_assoc.
Qed.

Lemma pagesRead_no_match name ps :
  find (named name) (flat_map LoadBalancers ps) = None ->
  pagesRead name ps = ps.
Proof.
  induction ps as [|p ps IH]; simpl; auto.
  rewrite find_app_first, <- firstNamed_find.
  destruct (firstNamed name (LoadBalancers p)); [discriminate|].
  intros H. now rewrite IH.
Qed.

Lemma pagesRead_match name ps lb :
  find (named name) (flat_map LoadBalancers ps) = Some lb ->
  exists before p after,
    ps = before ++ p :: after
    /\ pagesRead name ps = before ++ [p]
    /\ find (named name) (flat_map LoadBalancers before) = None
    /\ find (named name) (LoadBalancers p) = Some lb.
Proof.
  induction ps as [|p ps IH]; simpl; [discriminate|].
  rewrite find_app_first, firstNamed_find.
  destruct (find (named name) (LoadBalancers p)) as [x|] eqn:E.
  - intros H. exists [], p, ps. now rewrite <- H.
  - intros H. destruct (IH H) as (before & q & after & -> & -> & Hb & Hq).
    exists (p :: before), q, after. simpl.
    rewrite find_app_first, E. auto.
Qed.

(** C10.  GetLoadBalancerByName returns the first load balancer, in the
    order of the pages, whose display name equals the given name; the
    listing is called for the pages up to the one with the match and for no
    later page, so a second load balancer of that name is never looked at.
    When no page holds a match it fails with the search error whose
    not-found flag is set. *)
Theorem GetLoadBalancerByName_first_match c name ps fuel h :
  loadBalancerPages c "" ps -> List.length ps <= fuel ->
  GetLoadBalancerByName c fuel name h
  = (match find (named name) (flat_map LoadBalancers ps) with
     | Some lb => Returned lb
     | None =>
         Failed (SearchError
                   (Sprintf "could not find load balancer with name '%s'"
                            [OpString name])
                   true)
     end,
     h ++ loadBalancerCalls c "" (pagesRead name ps))
  /\ (find (named name) (flat_map LoadBalancers ps) = None ->
      pagesRead name ps = ps)
  /\ (forall lb,
        find (named name) (flat_map LoadBalancers ps) = Some lb ->
        exists before p after,
          ps = before ++ p :: after
          /\ pagesRead name ps = before ++ [p]
          /\ find (named name) (flat_map LoadBalancers before) = None
          /\ find (named name) (LoadBalancers p) = Some lb).
Proof.
  intros HP Hf. split; [|split].
  - unfold GetLoadBalancerByName. fold (listOpts "").
    now apply loadBalancerLoop_pages.
  - apply pagesRead_no_match.
  - apply pagesRead_match.
Qed.

Lemma GetLoadBalancerByName_first_match_witness :
  GetLoadBalancerByName Example.c 3 "lb-a" []
  = (Returned Example.lbA,
     [CallListLoadBalancers Example.demo (listOpts "");
      CallListLoadBalancers Example.demo (listOpts "l2")])
  /\ GetLoadBalancerByName Example.c 3 "nope" []
     = (Failed (SearchError
                  (Sprintf "could not find load balancer with name '%s'"
                           [OpString "nope"])
                  true),
        [CallListLoadBalancers Example.demo (listOpts "");
         CallListLoadBalancers Example.demo (listOpts "l2");
         CallListLoadBalancers Example.demo (listOpts "l3")]).
Proof.
  assert (HP : loadBalancerPages Example.c ""
                 [Example.listLoadBalancers "";
                  Example.listLoadBalancers "l2";
                  Example.listLoadBalancers "l3"]).
  { apply Paged_more; [reflexivity | discriminate |].
    apply Paged_more; [reflexivity | discriminate |].
    apply Paged_last; reflexivity. }
  assert (Hf : List.length [Example.listLoadBalancers "";
                            Example.listLoadBalancers "l2";
                            Example.listLoadBalancers "l3"] <= 3)
    by (simpl; lia).
  split.
  - exact (proj1 (GetLoadBalancerByName_first_match Example.c "lb-a"
                    _ 3 [] HP Hf)).
  - exact (proj1 (GetLoadBalancerByName_first_match Example.c "nope"
                    _ 3 [] HP Hf)).
Defined.

(** ** The pagination loops *)

(** X13.  The loops of GetInstanceByNodeName, findInstanceByNodeNameIsVnic,
    GetAttachedVnicsForInstance and GetLoadBalancerByName: for pages P1..Pn
    of which only the last lacks a next-page cursor, with fuel for n rounds
    the loop returns, having made exactly n listing calls, the first
    without a cursor and each next one with the cursor of the page before,
    and it aggregates the filtered items of all the pages (the load
    balancer search, finding no match on any page, reads all n and fails
    with not-found). *)
Theorem pagination_loops_follow_cursors (c : client) :
  (forall name ps fuel running h,
      instancePages c name "" ps -> List.length ps <= fuel ->
      listInstancesLoop c fuel (instanceOpts name "") running h
      = (Returned (running ++ filter isRunning (flat_map Instances ps)),
         h ++ instanceCalls c name "" ps)
      /\ List.length (instanceCalls c name "" ps) = List.length ps)
  /\ (forall vnicOf instanceOf nodeName ps fuel running h,
      attachmentPages c "" "" ps ->
      servesVnics vnicOf c (flat_map Attachments ps) ->
      servesInstances vnicOf instanceOf c nodeName
        (flat_map Attachments ps) ->
      List.length ps <= fuel ->
      vnicScanLoop c fuel nodeName (attachmentOpts "" "") running h
      = (Returned (running ++ keptInstances vnicOf instanceOf nodeName
                                (flat_map Attachments ps)),
         h ++ vnicScanCalls vnicOf c nodeName "" ps)
      /\ filter isListCall (vnicScanCalls vnicOf c nodeName "" ps)
         = attachmentCalls c "" "" ps
      /\ List.length (attachmentCalls c "" "" ps) = List.length ps)
  /\ (forall vnicOf id ps fuel vnics h,
      attachmentPages c id "" ps ->
      servesVnics vnicOf c (flat_map Attachments ps) ->
      List.length ps <= fuel ->
      attachedVnicsLoop c fuel (attachmentOpts id "") vnics h
      = (Returned (vnics ++ availableVnics vnicOf (flat_map Attachments ps)),
         h ++ attachedVnicsCalls c id "" ps)
      /\ filter isListCall (attachedVnicsCalls c id "" ps)
         = attachmentCalls c id "" ps
      /\ List.length (attachmentCalls c id "" ps) = List.length ps)
  /\ (forall name ps fuel h,
      loadBalancerPages c "" ps ->
      find (named name) (flat_map LoadBalancers ps) = None ->
      List.length ps <= fuel ->
      GetLoadBalancerByName c fuel name h
      = (Failed (SearchError
                   (Sprintf "could not find load balancer with name '%s'"
                            [OpString name])
                   true),
         h ++ loadBalancerCalls c "" ps)
      /\ List.length (loadBalancerCalls c "" ps) = List.length ps).
Proof.
  repeat split.
  - now apply listInstancesLoop_pages.
  - apply instanceCalls_length.
  - now apply vnicScanLoop_pages.
  - apply vnicScanCalls_listing.
  - unfold attachmentCalls. now rewrite length_map, cursors_length.
  - now apply attachedVnicsLoop_pages.
  - apply attachedVnicsCalls_listing.
  - unfold attachmentCalls. now rewrite length_map, cursors_length.
  - unfold GetLoadBalancerByName. fold (listOpts "").
    rewrite (loadBalancerLoop_pages c name ps) by assumption.
    match goal with H : find _ _ = None |- _ =>
      rewrite H, (pagesRead_no_match _ _ H) end.
    reflexivity.
  - unfold loadBalancerCalls. now rewrite length_map, cursors_length.
Qed.

Lemma pagination_loops_follow_cursors_witness :
  listInstancesLoop Example.c 2 (instanceOpts "web-1" "") [] []
  = (Returned [Example.web1],
     [CallListInstances Example.demo (instanceOpts "web-1" "");
      CallListInstances Example.demo (instanceOpts "web-1" "i2")])
  /\ attachedVnicsLoop Example.c 1
       (attachmentOpts "ocid1.instance.web1" "") [] []
     = (Returned [Example.v1],
        [CallListVnicAttachments Example.demo
           (Some (attachmentOpts "ocid1.instance.web1" ""));
         CallGetVnic "v1"; CallGetVnic "v4"]).
Proof.
  split.
  - refine (proj1 (proj1 (pagination_loops_follow_cursors Example.c)
                     "web-1"
                     [Example.listInstances "web-1" "";
                      Example.listInstances "web-1" "i2"] 2 [] [] _ _)).
    + apply Paged_more; [reflexivity | discriminate |].
      apply Paged_last; reflexivity.
    + simpl. lia.
  - refine (proj1 (proj1 (proj2 (proj2
              (pagination_loops_follow_cursors Example.c)))
              Example.vnicOf "ocid1.instance.web1"
              [Example.listVnicAttachments Example.demo
                 (Some (attachmentOpts "ocid1.instance.web1" ""))]
              1 [] [] _ _ _)).
    + apply Paged_last; reflexivity.
    + intros a h _ _. reflexivity.
    + simpl. lia.
Defined.

(** C1, at the failing input.  In compartment [big] the attachments come
    in two well-formed pages, the first with cursor ["more"], and the vnic
    with private IP "10.0.0.6" is on the second.  GetSubnetsForInternalIPs
    calls the listing without options, is answered the first page, and in
    its second round calls the listing without options again: the cursor
    is not fed back, the first page is read twice and the second page is
    not read. *)
Theorem GetSubnetsForInternalIPs_skips_cursor :
  attachmentPages Example.cBig "" ""
    [Example.listVnicAttachments Example.big (Some (attachmentOpts "" ""));
     Example.listVnicAttachments Example.big
       (Some (attachmentOpts "" "more"))]
  /\ ListVnicAttachments_ Example.cloud [] Example.big None
     = inr (Example.listVnicAttachments Example.big
              (Some (attachmentOpts "" "")))
  /\ snd (GetSubnetsForInternalIPs Example.cBig 2 ["10.0.0.6"] [])
     = [CallListVnicAttachments Example.big None; CallGetVnic "v1";
        CallListVnicAttachments Example.big None; CallGetVnic "v1"]
  /\ Attachments (Example.listVnicAttachments Example.big
                    (Some (attachmentOpts "" "more"))) = [Example.att2]
  /\ Vnic_PrivateIPAddress
       (Example.vnicOf (VnicAttachment_VnicID Example.att2)) = "10.0.0.6".
Proof.
  split; [|repeat split].
  apply Paged_more; [reflexivity | discriminate |].
  apply Paged_last; reflexivity.
Qed.

(** ** AwaitWorkRequest *)

Section Await.

Variable c : client.
Variable id : string.

(** The condition AwaitWorkRequest hands to the backoff. *)
Let condition : M (option WorkRequest) :=
  twr <- GetWorkRequest c id ;;
  if (WorkRequest_State twr =? WorkRequestSucceeded)%string
  then ret (Some twr)
  else if (WorkRequest_State twr =? WorkRequestFailed)%string
  then fail (Errorf "WorkRequest %q failed: %s"
                    [OpString id; OpString (WorkRequest_Message twr)])
  else ret None.

Lemma AwaitWorkRequest_poll h :
  AwaitWorkRequest c id h = wait.poll (wait.Steps backoff) condition h.
Proof. reflexivity. Qed.

Lemma poll_snoc n : poll id n ++ [CallGetWorkRequest id] = poll id (S n).
Proof. unfold poll. simpl. now rewrite repeat_cons. Qed.

Lemma condition_in_progress h wr :
  GetWorkRequest_ (Client c) h id = inr wr -> inProgress wr ->
  condition h = (Returned None, h ++ [CallGetWorkRequest id]).
Proof.
  intros E [Hs Hf]. unfold condition, GetWorkRequest.
  rewrite (bind_call _ _ _ _ wr) by assumption.
  apply String.eqb_neq in Hs, Hf. now rewrite Hs, Hf.
Qed.

Lemma condition_succeeded h wr :
  GetWorkRequest_ (Client c) h id = inr wr ->
  WorkRequest_State wr = WorkRequestSucceeded ->
  condition h = (Returned (Some wr), h ++ [CallGetWorkRequest id]).
Proof.
  intros E Hs. unfold condition, GetWorkRequest.
  rewrite (bind_call _ _ _ _ wr) by assumption.
  now rewrite Hs.
Qed.

Lemma condition_failed h wr :
  GetWorkRequest_ (Client c) h id = inr wr ->
  WorkRequest_State wr = WorkRequestFailed ->
  condition h
  = (Failed (Errorf "WorkRequest %q failed: %s"
                    [OpString id; OpString (WorkRequest_Message wr)]),
     h ++ [CallGetWorkRequest id]).
Proof.
  intros E Hs. unfold condition, GetWorkRequest.
  rewrite (bind_call _ _ _ _ wr) by assumption.
  now rewrite Hs.
Qed.

Lemma condition_error h e :
  GetWorkRequest_ (Client c) h id = inl e ->
  condition h = (Failed e, h ++ [CallGetWorkRequest id]).
Proof.
  intros E. unfold condition, GetWorkRequest.
  now rewrite (bind_call_failed _ _ _ _ e) by assumption.
Qed.

(** [k] polls that find the work request in progress use up [k] of the
    attempts. *)
Lemma poll_in_progress k : forall steps h,
  k <= steps ->
  (forall j, j < k ->
     exists wr, GetWorkRequest_ (Client c) (h ++ poll id j) id = inr wr
                /\ inProgress wr) ->
  wait.poll steps condition h
  = wait.poll (steps - k) condition (h ++ poll id k).
Proof.
  induction k as [|k IH]; intros steps h Hk Hobs.
  - unfold poll. simpl. now rewrite Nat.sub_0_r, app_nil_r.
  - destruct steps as [|steps]; [lia|].
    destruct (Hobs 0) as (wr & E & Hp); [lia|].
    unfold poll in E. simpl in E. rewrite app_nil_r in E.
    change (wait.poll (S steps) condition h)
      with ((ok <- condition ;;
             match ok with
             | Some a => ret a
             | None => wait.poll steps condition
             end) h).
    erewrite bind_returned by (eapply condition_in_progress; eassumption).
    cbv beta iota.
    rewrite (IH steps (h ++ [CallGetWorkRequest id])).
    + rewrite <- app_assoc. reflexivity.
    + lia.
    + intros j Hj. destruct (Hobs (S j)) as (wr' & E' & Hp'); [lia|].
      exists wr'. split; [|assumption].
      rewrite <- app_assoc. exact E'.
Qed.

(** Whatever the work request does, AwaitWorkRequest only polls it, at
    most [Steps] times, and a work request it returns has succeeded. *)
Lemma poll_trace steps : forall h,
  exists n,
    n <= steps
    /\ snd (wait.poll steps condition h) = h ++ poll id n
    /\ (forall wr, fst (wait.poll steps condition h) = Returned wr ->
          1 <= n /\ WorkRequest_State wr = WorkRequestSucceeded).
Proof.
  induction steps as [|steps IH]; intros h.
  - exists 0. unfold poll. simpl. rewrite app_nil_r.
    repeat split; auto; discriminate.
  - simpl wait.poll.
    destruct (GetWorkRequest_ (Client c) h id) as [e|wr] eqn:E.
    + exists 1. unfold bind. rewrite (condition_error h e E).
      simpl. repeat split; auto; try lia; discriminate.
    + destruct (String.eqb_spec (WorkRequest_State wr)
                  WorkRequestSucceeded) as [Hs|Hs].
      * exists 1. unfold bind. rewrite (condition_succeeded h wr E Hs).
        simpl. repeat split; auto; try lia; congruence.
      * destruct (String.eqb_spec (WorkRequest_State wr)
                    WorkRequestFailed) as [Hf|Hf].
        -- exists 1. unfold bind. rewrite (condition_failed h wr E Hf).
           simpl. repeat split; auto; try lia; discriminate.
        -- unfold bind.
           rewrite (condition_in_progress h wr E (conj Hs Hf)).
           destruct (IH (h ++ [CallGetWorkRequest id]))
             as (n & Hn & Htr & Hret).
           exists (S n). rewrite Htr. split; [lia|]. split.
           ++ now rewrite <- app_assoc.
           ++ intros wr' Hwr'. destruct (Hret wr' Hwr'). split; [lia|auto].
Qed.

Lemma AwaitWorkRequest_returned h result h1 :
  AwaitWorkRequest c id h = (Returned result, h1) ->
  exists n, 1 <= n <= wait.Steps backoff /\ h1 = h ++ poll id n
            /\ WorkRequest_State result = WorkRequestSucceeded.
Proof.
  rewrite AwaitWorkRequest_poll. intros E.
  destruct (poll_trace (wait.Steps backoff) h) as (n & Hn & Htr & Hret).
  rewrite E in Htr, Hret. simpl in Htr.
  destruct (Hret result eq_refl). exists n. repeat split; auto.
Qed.

Lemma AwaitWorkRequest_after k h :
  k < wait.Steps backoff ->
  (forall j, j < k ->
     exists wr, GetWorkRequest_ (Client c) (h ++ poll id j) id = inr wr
                /\ inProgress wr) ->
  AwaitWorkRequest c id h
  = (x <- condition ;;
     match x with
     | Some a => ret a
     | None => wait.poll (wait.Steps backoff - S k) condition
     end) (h ++ poll id k).
Proof.
  intros Hk Hobs. rewrite AwaitWorkRequest_poll.
  rewrite (poll_in_progress k) by (assumption || lia).
  destruct (wait.Steps backoff - k) as [|n] eqn:En; [lia|].
  replace (wait.Steps backoff - S k) with n by lia.
  reflexivity.
Qed.

Lemma AwaitWorkRequest_timeout h :
  (forall j, j < wait.Steps backoff ->
     exists wr, GetWorkRequest_ (Client c) (h ++ poll id j) id = inr wr
                /\ inProgress wr) ->
  AwaitWorkRequest c id h
  = (Failed wait.ErrWaitTimeout, h ++ poll id (wait.Steps backoff)).
Proof.
  intros Hobs. rewrite AwaitWorkRequest_poll.
  rewrite (poll_in_progress (wait.Steps backoff)) by (assumption || lia).
  now rewrite Nat.sub_diag.
Qed.

End Await.

(** C6, as the code has it.  After [k] polls that find the work request in
    progress, with [k] below the 15 attempts of the backoff: when the next
    poll finds it Succeeded AwaitWorkRequest returns it, when it finds it
    Failed AwaitWorkRequest fails with the error that carries the message
    of the work request, and when the fetch itself fails AwaitWorkRequest
    fails with that error; in each case it has polled exactly [k + 1] times
    and polls no more. *)
Theorem AwaitWorkRequest_state_machine c id h k :
  k < wait.Steps backoff ->
  (forall j, j < k ->
     exists wr, GetWorkRequest_ (Client c) (h ++ poll id j) id = inr wr
                /\ inProgress wr) ->
  (forall wr,
      GetWorkRequest_ (Client c) (h ++ poll id k) id = inr wr ->
      WorkRequest_State wr = WorkRequestSucceeded ->
      AwaitWorkRequest c id h = (Returned wr, h ++ poll id (S k)))
  /\ (forall wr,
      GetWorkRequest_ (Client c) (h ++ poll id k) id = inr wr ->
      WorkRequest_State wr = WorkRequestFailed ->
      AwaitWorkRequest c id h
      = (Failed (Errorf "WorkRequest %q failed: %s"
                        [OpString id; OpString (WorkRequest_Message wr)]),
         h ++ poll id (S k)))
  /\ (forall e,
      GetWorkRequest_ (Client c) (h ++ poll id k) id = inl e ->
      AwaitWorkRequest c id h = (Failed e, h ++ poll id (S k))).
Proof.
  intros Hk Hobs.
  rewrite (AwaitWorkRequest_after c id k h Hk Hobs).
  split; [|split].
  - intros wr E Hs.
    erewrite bind_returned by (apply condition_succeeded; eassumption).
    unfold ret. now rewrite <- app_assoc, poll_snoc.
  - intros wr E Hf.
    erewrite bind_failed by (apply condition_failed; eassumption).
    now rewrite <- app_assoc, poll_snoc.
  - intros e E.
    erewrite bind_failed by (apply condition_error; eassumption).
    now rewrite <- app_assoc, poll_snoc.
Qed.

Lemma AwaitWorkRequest_state_machine_witness :
  AwaitWorkRequest Example.c "wr-lb" []
  = (Returned (Example.workRequest "wr-lb" WorkRequestSucceeded ""),
     [CallGetWorkRequest "wr-lb"; CallGetWorkRequest "wr-lb";
      CallGetWorkRequest "wr-lb"])
  /\ AwaitWorkRequest Example.c "wr-bad" []
     = (Failed (Errorf "WorkRequest %q failed: %s"
                       [OpString "wr-bad"; OpString "out of capacity"]),
        [CallGetWorkRequest "wr-bad"; CallGetWorkRequest "wr-bad"])
  /\ AwaitWorkRequest Example.c "wr-down" []
     = (Failed (SdkError "connection reset"),
        [CallGetWorkRequest "wr-down"; CallGetWorkRequest "wr-down"]).
Proof.
  split; [|split].
  - refine (proj1 (AwaitWorkRequest_state_machine Example.c "wr-lb" [] 2
                     _ _) _ _ _).
    + simpl. lia.
    + intros j Hj. exists (Example.workRequest "wr-lb"
                             WorkRequestInProgress "").
      destruct j as [|[|j]]; [| |lia]; (split; [reflexivity|]);
        split; discriminate.
    + reflexivity.
    + reflexivity.
  - refine (proj1 (proj2 (AwaitWorkRequest_state_machine Example.c "wr-bad"
                            [] 1 _ _))
              (Example.workRequest "wr-bad" WorkRequestFailed
                 "out of capacity") _ _).
    + simpl. lia.
    + intros j Hj. exists (Example.workRequest "wr-bad"
                             WorkRequestInProgress "").
      destruct j as [|j]; [|lia]. split; [reflexivity|].
      split; discriminate.
    + reflexivity.
    + reflexivity.
  - refine (proj2 (proj2 (AwaitWorkRequest_state_machine Example.c "wr-down"
                            [] 1 _ _)) _ _).
    + simpl. lia.
    + intros j Hj. exists (Example.workRequest "wr-down"
                             WorkRequestInProgress "").
      destruct j as [|j]; [|lia]. split; [reflexivity|].
      split; discriminate.
    + reflexivity.
Defined.

(** C6 fails as stated once [k] reaches the number of attempts: work request
    ["wr-late"] is found in progress by the first 15 polls and would be
    found Succeeded by the sixteenth, yet AwaitWorkRequest polls 15 times
    and fails with the timeout error. *)
Lemma AwaitWorkRequest_counterexample :
  (forall j, j < 15 ->
     GetWorkRequest_ Example.cloud (poll "wr-late" j) "wr-late"
     = inr (Example.workRequest "wr-late" WorkRequestInProgress ""))
  /\ GetWorkRequest_ Example.cloud (poll "wr-late" 15) "wr-late"
     = inr (Example.workRequest "wr-late" WorkRequestSucceeded "")
  /\ AwaitWorkRequest Example.c "wr-late" []
     = (Failed ErrWaitTimeout, poll "wr-late" 15).
Proof.
  split; [|split; reflexivity].
  intros j Hj.
  do 15 (destruct j as [|j]; [reflexivity|]). lia.
Qed.

Lemma attempts_polls c id h n :
  snd (AwaitWorkRequest c id h) = h ++ poll id n -> attempts c id h = n.
Proof.
  unfold attempts. intros ->. rewrite length_app. unfold poll.
  rewrite repeat_length. lia.
Qed.

Lemma attempts_bounded c id h : attempts c id h <= wait.Steps backoff.
Proof.
  destruct (poll_trace c id (wait.Steps backoff) h) as (n & Hn & Htr & _).
  now rewrite (attempts_polls c id h n Htr).
Qed.



(** ** The create-and-await operations *)

(** C5, as the code has it.  CreateAndAwaitLoadBalancer and
    CreateAndAwaitBackendSet issue the mutating call, take the work request
    id it answers, poll that work request until it has succeeded, and then
    make one more read, of the load balancer the work request names or of
    the backend set by its name, whose answer they return.
    CreateAndAwaitListener issues the mutating call and polls the work
    request in the same way, then returns with no further call and no
    resource. *)
Theorem create_and_await (c : client) :
  (forall name shape subnets h req result h1,
      CreateLoadBalancer_ (Client c) h (compartmentOCID c) shape subnets name
      = inr req ->
      AwaitWorkRequest c req
        (h ++ [CallCreateLoadBalancer (compartmentOCID c) shape subnets name])
      = (Returned result, h1) ->
      CreateAndAwaitLoadBalancer c name shape subnets h
      = (match GetLoadBalancer_ (Client c) h1
                 (WorkRequest_LoadBalancerID result) with
         | inr lb => Returned lb
         | inl e => Failed e
         end,
         h1 ++ [CallGetLoadBalancer (WorkRequest_LoadBalancerID result)])
      /\ exists n,
           1 <= n
           /\ h1 = (h ++ [CallCreateLoadBalancer (compartmentOCID c) shape
                            subnets name]) ++ poll req n)
  /\ (forall lb bs h wr result h1,
      CreateBackendSet_ (Client c) h (LoadBalancer_ID lb)
        (BackendSet_Name bs) (BackendSet_Policy bs) (BackendSet_Backends bs)
        (BackendSet_HealthChecker bs) (BackendSet_SSLConfig bs)
        (BackendSet_SessionPersistenceConfig bs)
      = inr wr ->
      AwaitWorkRequest c wr (h ++ [createBackendSetCall lb bs])
      = (Returned result, h1) ->
      CreateAndAwaitBackendSet c lb bs h
      = (match GetBackendSet_ (Client c) h1 (LoadBalancer_ID lb)
                 (BackendSet_Name bs) with
         | inr set => Returned set
         | inl e => Failed e
         end,
         h1 ++ [CallGetBackendSet (LoadBalancer_ID lb) (BackendSet_Name bs)])
      /\ exists n,
           1 <= n /\ h1 = (h ++ [createBackendSetCall lb bs]) ++ poll wr n)
  /\ (forall lb listener h wr result h1,
      CreateListener_ (Client c) h (LoadBalancer_ID lb)
        (Listener_Name listener) (Listener_DefaultBackendSetName listener)
        (Listener_Protocol listener) (Listener_Port listener)
        (Listener_SSLConfig listener)
      = inr wr ->
      AwaitWorkRequest c wr (h ++ [createListenerCall lb listener])
      = (Returned result, h1) ->
      CreateAndAwaitListener c lb listener h = (Returned tt, h1)
      /\ exists n,
           1 <= n
           /\ h1 = (h ++ [createListenerCall lb listener]) ++ poll wr n).
Proof.
  split; [|split].
  - intros name shape subnets h req result h1 Hc Ha. split.
    + unfold CreateAndAwaitLoadBalancer, CreateLoadBalancer.
      rewrite (bind_call _ _ _ _ req) by assumption.
      erewrite bind_returned by eassumption.
      reflexivity.
    + destruct (AwaitWorkRequest_returned _ _ _ _ _ Ha) as (n & Hn & E & _).
      exists n. split; [lia | assumption].
  - intros lb bs h wr result h1 Hc Ha. split.
    + unfold CreateAndAwaitBackendSet, CreateBackendSet.
      rewrite (bind_call _ _ _ _ wr) by assumption.
      erewrite bind_returned by eassumption.
      reflexivity.
    + destruct (AwaitWorkRequest_returned _ _ _ _ _ Ha) as (n & Hn & E & _).
      exists n. split; [lia | assumption].
  - intros lb listener h wr result h1 Hc Ha. split.
    + unfold CreateAndAwaitListener, CreateListener.
      rewrite (bind_call _ _ _ _ wr) by assumption.
      erewrite bind_returned by eassumption.
      reflexivity.
    + destruct (AwaitWorkRequest_returned _ _ _ _ _ Ha) as (n & Hn & E & _).
      exists n. split; [lia | assumption].
Qed.

Lemma create_and_await_witness :
  CreateAndAwaitLoadBalancer Example.c "lb-a" "100Mbps" ["s1"; "s2"] []
  = (Returned Example.lbA,
     [CallCreateLoadBalancer Example.demo "100Mbps" ["s1"; "s2"] "lb-a";
      CallGetWorkRequest "wr-lb"; CallGetWorkRequest "wr-lb";
      CallGetWorkRequest "wr-lb"; CallGetLoadBalancer "ocid1.lb.1"]).
Proof.
  exact (proj1 (proj1 (create_and_await Example.c)
                  "lb-a" "100Mbps" ["s1"; "s2"] [] "wr-lb"
                  (Example.workRequest "wr-lb" WorkRequestSucceeded "")
                  [CallCreateLoadBalancer Example.demo "100Mbps"
                     ["s1"; "s2"] "lb-a";
                   CallGetWorkRequest "wr-lb"; CallGetWorkRequest "wr-lb";
                   CallGetWorkRequest "wr-lb"]
                  eq_refl eq_refl)).
Defined.

(** C5 fails as stated for the listener: CreateAndAwaitListener ends with
    the last poll of the work request; it makes no read after it and
    returns no resource. *)
Lemma create_and_await_counterexample :
  CreateAndAwaitListener Example.c Example.lbA
    {| Listener_Name := "http"; Listener_DefaultBackendSetName := "web";
       Listener_Protocol := "HTTP"; Listener_Port := 80;
       Listener_SSLConfig := None |} []
  = (Returned tt,
     [CallCreateListener "ocid1.lb.1" "http" "web" "HTTP" 80 None;
      CallGetWorkRequest "wr-lb"; CallGetWorkRequest "wr-lb";
      CallGetWorkRequest "wr-lb"]).
Proof. reflexivity. Qed.

(** ** GetSubnetsForInternalIPs *)

Lemma existsb_eqb_In x l : existsb (String.eqb x) l = true <-> In x l.
Proof.
  rewrite existsb_exists. split.
  - intros (y & Hy & E). apply String.eqb_eq in E. now subst.
  - intros H. exists x. split; [assumption | apply String.eqb_refl].
Qed.

Lemma Has_fold_Insert l : forall s x,
  sets.Has (fold_left sets.Insert l s) x
  = sets.Has s x || existsb (String.eqb x) l.
Proof.
  induction l as [|a l IH]; intros s x; simpl.
  - now rewrite orb_false_r.
  - rewrite IH. unfold sets.Insert.
    destruct (sets.Has s a) eqn:Ea.
    + destruct (String.eqb_spec x a) as [->|N]; simpl; auto.
      now rewrite Ea.
    + unfold sets.Has at 1. simpl. fold (sets.Has s x).
      now rewrite orb_assoc, (orb_comm (x =? a)%string).
Qed.

Lemma Has_NewString ips x :
  sets.Has (sets.NewString ips) x = existsb (String.eqb x) ips.
Proof. unfold sets.NewString. now rewrite Has_fold_Insert. Qed.

Lemma firstSeen_In ids : forall seen id,
  In id (firstSeen seen ids) <-> In id ids /\ ~ In id seen.
Proof.
  induction ids as [|x ids IH]; intros seen id; simpl.
  - tauto.
  - destruct (existsb (String.eqb x) seen) eqn:E.
    + apply existsb_eqb_In in E. rewrite IH.
      split; [tauto | intros [[->|H] N]; tauto].
    + assert (Hx : ~ In x seen).
      { intros H. apply existsb_eqb_In in H. congruence. }
      simpl. rewrite IH. simpl.
      destruct (String.string_dec x id) as [->|N]; tauto.
Qed.

Lemma firstSeen_NoDup ids : forall seen, NoDup (firstSeen seen ids).
Proof.
  induction ids as [|x ids IH]; intros seen; simpl.
  - constructor.
  - destruct (existsb (String.eqb x) seen); [apply IH|].
    constructor; [|apply IH].
    rewrite firstSeen_In. simpl. tauto.
Qed.

Section SubnetProofs.

Variable vnicOf : string -> Vnic.
Variable subnetOf : string -> Subnet.
Variable c : client.
Variable ips : list string.

Lemma resolveAttachments_firstSeen atts : forall seen subnets h,
  servesVnics vnicOf c atts ->
  servesSubnets subnetOf c (touchedSubnetIDs vnicOf ips atts) ->
  exists calls seen',
    resolveAttachments c (sets.NewString ips) seen subnets atts h
    = (Returned (seen',
                 subnets ++ map subnetOf
                   (firstSeen seen (touchedSubnetIDs vnicOf ips atts))),
       h ++ calls)
    /\ subnetFetches calls
       = firstSeen seen (touchedSubnetIDs vnicOf ips atts)
    /\ vnicFetchIDs calls
       = map VnicAttachment_VnicID (filter isAttached atts)
    /\ List.length calls
       = List.length (subnetFetches calls)
         + List.length (vnicFetchIDs calls).
Proof.
  induction atts as [|a atts IH]; intros seen subnets h HV HS.
  - exists [], seen. simpl. unfold ret. now rewrite !app_nil_r.
  - destruct (servesVnics_app vnicOf c [a] atts HV) as [HVa HVr].
    simpl resolveAttachments.
    change (VnicAttachment_State a =? ResourceAttached)%string
      with (isAttached a).
    unfold touchedSubnetIDs in *. simpl filter in *.
    destruct (isAttached a) eqn:Ea; cbn [andb] in *.
    + unfold GetVnic.
      rewrite (bind_call _ _ _ _ (vnicOf (VnicAttachment_VnicID a)))
        by (apply HVa; simpl; auto).
      rewrite Has_NewString.
      change (negb (Vnic_PrivateIPAddress (vnicOf (VnicAttachment_VnicID a))
                    =? "")%string
              && existsb (String.eqb (Vnic_PrivateIPAddress
                                        (vnicOf (VnicAttachment_VnicID a))))
                   ips)
        with (hasInternalIP ips (vnicOf (VnicAttachment_VnicID a))).
      destruct (hasInternalIP ips (vnicOf (VnicAttachment_VnicID a)))
        eqn:Ei; cbn [andb map firstSeen] in *.
      * unfold sets.Has at 1.
        destruct (existsb
                    (String.eqb (Vnic_SubnetID
                                   (vnicOf (VnicAttachment_VnicID a))))
                    seen) eqn:Es; cbn [negb].
        -- destruct (IH seen subnets
                       (h ++ [CallGetVnic (VnicAttachment_VnicID a)])
                       HVr)
             as (calls & seen' & E & Hs & Hv & Hl).
           { intros id h' Hin. apply HS. now right. }
           exists (CallGetVnic (VnicAttachment_VnicID a) :: calls), seen'.
           rewrite E, <- app_assoc. simpl.
           repeat split; try congruence. rewrite Hl. lia.
        -- unfold GetSubnet.
           rewrite (bind_call _ _ _ _
                      (subnetOf (Vnic_SubnetID
                                   (vnicOf (VnicAttachment_VnicID a)))))
             by (apply HS; now left).
           unfold sets.Insert, sets.Has. rewrite Es.
           destruct (IH (Vnic_SubnetID (vnicOf (VnicAttachment_VnicID a))
                         :: seen)
                       (subnets
                        ++ [subnetOf (Vnic_SubnetID
                                        (vnicOf (VnicAttachment_VnicID a)))])
                       ((h ++ [CallGetVnic (VnicAttachment_VnicID a)])
                        ++ [CallGetSubnet
                              (Vnic_SubnetID
                                 (vnicOf (VnicAttachment_VnicID a)))])
                       HVr)
             as (calls & seen' & E & Hs & Hv & Hl).
           { intros id h' Hin. apply HS. now right. }
           exists (CallGetVnic (VnicAttachment_VnicID a)
                   :: CallGetSubnet
                        (Vnic_SubnetID (vnicOf (VnicAttachment_VnicID a)))
                   :: calls), seen'.
           rewrite E, <- !app_assoc. simpl.
           repeat split; try congruence. rewrite Hl. lia.
      * destruct (IH seen subnets
                    (h ++ [CallGetVnic (VnicAttachment_VnicID a)])
                    HVr HS)
          as (calls & seen' & E & Hs & Hv & Hl).
        exists (CallGetVnic (VnicAttachment_VnicID a) :: calls), seen'.
        rewrite E, <- app_assoc. simpl.
        repeat split; try congruence. rewrite Hl. lia.
    + destruct (IH seen subnets h HVr HS)
        as (calls & seen' & E & Hs & Hv & Hl).
      exists calls, seen'. repeat split; auto.
Qed.

End SubnetProofs.

Lemma hasInternalIP_none v : hasInternalIP [] v = false.
Proof. unfold hasInternalIP. simpl. apply andb_false_r. Qed.

Lemma touchedSubnetIDs_none vnicOf atts : touchedSubnetIDs vnicOf [] atts = [].
Proof.
  unfold touchedSubnetIDs.
  induction atts as [|a atts IH]; simpl; auto.
  now rewrite hasInternalIP_none, andb_false_r.
Qed.

(** C8, as the code has it.  When the listing without options answers one
    page with no cursor, GetSubnetsForInternalIPs fetches the vnic of
    every Attached attachment, whatever the state of the vnic; of those
    whose private IP is non-empty and in the input set it fetches the
    subnet the first time the subnet id is seen and not again, and it
    returns the subnets in that order, each distinct id once.  An empty
    input set, like no match, gives the empty result and no error. *)
Theorem GetSubnetsForInternalIPs_one_page vnicOf subnetOf c ips p fuel h :
  (forall h, ListVnicAttachments_ (Client c) h (compartmentOCID c) None
             = inr p) ->
  AttachmentPage_NextPage p = "" ->
  servesVnics vnicOf c (Attachments p) ->
  servesSubnets subnetOf c (touchedSubnetIDs vnicOf ips (Attachments p)) ->
  1 <= fuel ->
  (exists calls,
      GetSubnetsForInternalIPs c fuel ips h
      = (Returned
           (map subnetOf
              (firstSeen [] (touchedSubnetIDs vnicOf ips (Attachments p)))),
         h ++ CallListVnicAttachments (compartmentOCID c) None :: calls)
      /\ subnetFetches calls
         = firstSeen [] (touchedSubnetIDs vnicOf ips (Attachments p))
      /\ vnicFetchIDs calls
         = map VnicAttachment_VnicID (filter isAttached (Attachments p))
      /\ List.length calls
         = List.length (subnetFetches calls)
           + List.length (vnicFetchIDs calls))
  /\ NoDup (firstSeen [] (touchedSubnetIDs vnicOf ips (Attachments p)))
  /\ (forall id,
        In id (firstSeen [] (touchedSubnetIDs vnicOf ips (Attachments p)))
        <-> In id (touchedSubnetIDs vnicOf ips (Attachments p)))
  /\ (ips = [] -> touchedSubnetIDs vnicOf ips (Attachments p) = []).
Proof.
  intros Hfetch Hnext HV HS Hf. split; [|split; [|split]].
  - destruct fuel as [|fuel]; [lia|].
    unfold GetSubnetsForInternalIPs. cbn [subnetsLoop].
    unfold ListVnicAttachments.
    rewrite (bind_call _ _ _ _ p) by apply Hfetch.
    destruct (resolveAttachments_firstSeen vnicOf subnetOf c ips
                (Attachments p) [] []
                (h ++ [CallListVnicAttachments (compartmentOCID c) None])
                HV HS)
      as (calls & seen' & E & Hs & Hv & Hl).
    exists calls. erewrite bind_returned by exact E.
    rewrite Hnext, SetNextPageOption_last. cbn [snd app]. unfold ret.
    rewrite <- app_assoc. auto.
  - apply firstSeen_NoDup.
  - intros id. rewrite firstSeen_In. simpl. tauto.
  - intros ->. apply touchedSubnetIDs_none.
Qed.

Lemma GetSubnetsForInternalIPs_one_page_witness :
  (exists calls,
      GetSubnetsForInternalIPs Example.c 1 ["10.0.0.5"; "10.0.0.6"] []
      = (Returned [Example.s1],
         [] ++ CallListVnicAttachments Example.demo None :: calls)
      /\ subnetFetches calls = ["s1"]
      /\ vnicFetchIDs calls = ["v1"; "v2"; "v4"]
      /\ List.length calls
         = List.length (subnetFetches calls)
           + List.length (vnicFetchIDs calls))
  /\ NoDup ["s1"]
  /\ (forall id, In id ["s1"] <-> In id ["s1"; "s1"])
  /\ (["10.0.0.5"; "10.0.0.6"] = [] -> ["s1"; "s1"] = []).
Proof.
  apply (GetSubnetsForInternalIPs_one_page Example.vnicOf Example.subnetOf
           Example.c ["10.0.0.5"; "10.0.0.6"]
           (Example.listVnicAttachments Example.demo None) 1 []).
  - reflexivity.
  - reflexivity.
  - intros a h _ _. reflexivity.
  - intros id h _. reflexivity.
  - lia.
Defined.

(** C8 fails as stated: the only vnic with private IP "10.0.1.9" is [v4],
    which is not in the Available state, and its subnet is resolved and
    returned all the same. *)
Lemma GetSubnetsForInternalIPs_counterexample :
  GetSubnetsForInternalIPs Example.c 1 ["10.0.1.9"] []
  = (Returned [Example.s2],
     [CallListVnicAttachments Example.demo None;
      CallGetVnic "v1"; CallGetVnic "v2"; CallGetVnic "v4";
      CallGetSubnet "s2"])
  /\ GetVnic_ Example.cloud [] "v4" = inr Example.v4
  /\ Vnic_PrivateIPAddress Example.v4 = "10.0.1.9"
  /\ isAvailable Example.v4 = false.
Proof. repeat split. Qed.

(** ** extractNodeAddressesFromVnic *)

(** C9.  For a vnic, with [ParseIP] deciding what a valid address is: a
    non-empty private IP that does not parse is an error, and so is a
    non-empty public IP that does not parse; otherwise the result holds one
    internal record when the private IP is non-empty, then one external
    record when the public IP is non-empty, and an empty field gives no
    record and no error.  No call is made.  With private IP "10.0.0.5" and
    no public IP the result is the one internal record "10.0.0.5". *)
Theorem extractNodeAddressesFromVnic_records (IP : Type)
    (ParseIP : string -> option IP) (IPString : IP -> string)
    (vnic : Vnic) (h : Trace) :
  (Vnic_PrivateIPAddress vnic <> "" ->
   ParseIP (Vnic_PrivateIPAddress vnic) = None ->
   extractNodeAddressesFromVnic IP ParseIP IPString (Some vnic) h
   = (Failed (Errorf "instance has invalid private address: %q"
                     [OpString (Vnic_PrivateIPAddress vnic)]), h))
  /\ (Vnic_PrivateIPAddress vnic = ""
      \/ ParseIP (Vnic_PrivateIPAddress vnic) <> None ->
      Vnic_PublicIPAddress vnic <> "" ->
      ParseIP (Vnic_PublicIPAddress vnic) = None ->
      extractNodeAddressesFromVnic IP ParseIP IPString (Some vnic) h
      = (Failed (Errorf "instance has invalid public address: %q"
                        [OpString (Vnic_PublicIPAddress vnic)]), h))
  /\ (Vnic_PrivateIPAddress vnic = "" ->
      Vnic_PublicIPAddress vnic = "" ->
      extractNodeAddressesFromVnic IP ParseIP IPString (Some vnic) h
      = (Returned [], h))
  /\ (forall ip,
      Vnic_PrivateIPAddress vnic <> "" ->
      ParseIP (Vnic_PrivateIPAddress vnic) = Some ip ->
      Vnic_PublicIPAddress vnic = "" ->
      extractNodeAddressesFromVnic IP ParseIP IPString (Some vnic) h
      = (Returned [{| NodeAddress_Type := NodeInternalIP;
                      NodeAddress_Address := IPString ip |}], h))
  /\ (forall ip,
      Vnic_PrivateIPAddress vnic = "" ->
      Vnic_PublicIPAddress vnic <> "" ->
      ParseIP (Vnic_PublicIPAddress vnic) = Some ip ->
      extractNodeAddressesFromVnic IP ParseIP IPString (Some vnic) h
      = (Returned [{| NodeAddress_Type := NodeExternalIP;
                      NodeAddress_Address := IPString ip |}], h))
  /\ (forall ip ip',
      Vnic_PrivateIPAddress vnic <> "" ->
      ParseIP (Vnic_PrivateIPAddress vnic) = Some ip ->
      Vnic_PublicIPAddress vnic <> "" ->
      ParseIP (Vnic_PublicIPAddress vnic) = Some ip' ->
      extractNodeAddressesFromVnic IP ParseIP IPString (Some vnic) h
      = (Returned [{| NodeAddress_Type := NodeInternalIP;
                      NodeAddress_Address := IPString ip |};
                   {| NodeAddress_Type := NodeExternalIP;
                      NodeAddress_Address := IPString ip' |}], h))
  /\ (forall ip,
      Vnic_PrivateIPAddress vnic = "10.0.0.5" ->
      Vnic_PublicIPAddress vnic = "" ->
      ParseIP "10.0.0.5" = Some ip -> IPString ip = "10.0.0.5" ->
      extractNodeAddressesFromVnic IP ParseIP IPString (Some vnic) h
      = (Returned [{| NodeAddress_Type := NodeInternalIP;
                      NodeAddress_Address := "10.0.0.5" |}], h)).
Proof.
  unfold extractNodeAddressesFromVnic, bind, ret, fail.
  repeat split.
  - intros Hne Hp. apply String.eqb_neq in Hne. now rewrite Hne, Hp.
  - intros [He|Hp] Hne Hq; apply String.eqb_neq in Hne.
    + rewrite He. simpl. now rewrite Hne, Hq.
    + destruct (Vnic_PrivateIPAddress vnic =? "")%string; simpl;
        [now rewrite Hne, Hq|].
      destruct (ParseIP (Vnic_PrivateIPAddress vnic)); [|congruence].
      now rewrite Hne, Hq.
  - intros He Hq. now rewrite He, Hq.
  - intros ip Hne Hp Hq. apply String.eqb_neq in Hne.
    now rewrite Hne, Hp, Hq.
  - intros ip He Hne Hq. apply String.eqb_neq in Hne.
    rewrite He. simpl. now rewrite Hne, Hq.
  - intros ip ip' Hne Hp Hne' Hq. apply String.eqb_neq in Hne, Hne'.
    now rewrite Hne, Hp, Hne', Hq.
  - intros ip Hp Hq Hparse Hshow. now rewrite Hp, Hq, Hparse, Hshow.
Qed.

Lemma extractNodeAddressesFromVnic_records_witness :
  extractNodeAddressesFromVnic Example.IPv4 Example.parseIPv4
    Example.showIPv4 (Some Example.v1) []
  = (Returned [{| NodeAddress_Type := NodeInternalIP;
                  NodeAddress_Address := "10.0.0.5" |}], []).
Proof.
  exact (proj2 (proj2 (proj2 (proj2 (proj2 (proj2
           (extractNodeAddressesFromVnic_records Example.IPv4
              Example.parseIPv4 Example.showIPv4 Example.v1 []))))))
           (10, 0, 0, 5) eq_refl eq_refl eq_refl eq_refl).
Defined.

(** * The rest of the client: proofs *)

Lemma bind_call_cases {A B} ev (answer : Trace -> error + A)
    (k : A -> M B) h :
  (x <- call ev answer ;; k x) h
  = match answer h with
    | inl e => (Failed e, h ++ [ev])
    | inr a => k a (h ++ [ev])
    end.
Proof. unfold bind, call. now destruct (answer h). Qed.

Lemma bind_cases {A B} (m : M A) (k : A -> M B) h :
  (x <- m ;; k x) h
  = match m h with
    | (Returned a, h') => k a h'
    | (Failed e, h') => (Failed e, h')
    | (OutOfFuel, h') => (OutOfFuel, h')
    end.
Proof. reflexivity. Qed.

(** ** What GetInstanceByNodeName does against any backend *)

Section AnyBackend.

Variable c : client.

Lemma Run_step {A} ok (good : A -> Prop) r h ev :
  ok ev = true -> Run ok good r (h ++ [ev]) -> Run ok good r h.
Proof.
  intros Hev (calls & E & Hok & Hg). exists (ev :: calls).
  rewrite E, <- app_assoc. simpl. rewrite Hev, Hok. auto.
Qed.

Lemma Run_failed {A} ok (good : A -> Prop) e h ev :
  ok ev = true -> Run ok good (Failed e, h ++ [ev]) h.
Proof.
  intros Hev. exists [ev]. simpl. rewrite Hev.
  repeat split; auto. discriminate.
Qed.

Lemma Run_here {A} ok (good : A -> Prop) (o : outcome A) h :
  (forall a, o = Returned a -> good a) -> Run ok good (o, h) h.
Proof. intros Hg. exists []. simpl. rewrite app_nil_r. auto. Qed.

Lemma Run_trans {A B} ok (good : A -> Prop) (good' : B -> Prop)
    (m : M A) (k : A -> M B) h :
  Run ok good (m h) h ->
  (forall a h', good a -> Run ok good' (k a h') h') ->
  Run ok good' ((x <- m ;; k x) h) h.
Proof.
  intros (calls & E & Hok & Hg) Hk. rewrite bind_cases.
  destruct (m h) as [[a|e|] h'] eqn:Em; simpl in E; subst h'.
  - destruct (Hk a (h ++ calls) (Hg a eq_refl)) as (calls' & E' & Hok' & Hg').
    exists (calls ++ calls'). rewrite E', app_assoc, forallb_app, Hok, Hok'.
    auto.
  - exists calls. repeat split; auto. discriminate.
  - exists calls. repeat split; auto. discriminate.
Qed.

Lemma Forall_snoc {A} (P : A -> Prop) l x :
  Forall P l -> P x -> Forall P (l ++ [x]).
Proof. intros Hl Hx. apply Forall_app. auto. Qed.

Lemma appendRunning_running l : forall running,
  Forall (fun i => isRunning i = true) running ->
  Forall (fun i => isRunning i = true) (appendRunning running l).
Proof.
  induction l as [|i l IH]; intros running Hr; simpl; auto.
  destruct (isRunning i) eqn:E; apply IH; auto.
  now apply Forall_snoc.
Qed.

Lemma listInstancesLoop_run fuel : forall opts running h,
  Forall (fun i => isRunning i = true) running ->
  Run isInstanceLookup (Forall (fun i => isRunning i = true))
      (listInstancesLoop c fuel opts running h) h.
Proof.
  induction fuel as [|fuel IH]; intros opts running h Hr.
  - apply Run_here. discriminate.
  - simpl listInstancesLoop. unfold ListInstances.
    rewrite bind_call_cases.
    destruct (ListInstances_ (Client c) h (compartmentOCID c) opts)
      as [e|r]; [now apply Run_failed|].
    apply Run_step with (ev := CallListInstances (compartmentOCID c) opts);
      [reflexivity|].
    destruct (SetNextPageOption (InstancePage_NextPage r)
                (ListInstances_Page opts)) as [[|] page].
    + apply IH. now apply appendRunning_running.
    + apply Run_here. intros a [= <-]. now apply appendRunning_running.
Qed.

Lemma scanAttachments_run nodeName atts : forall running h,
  Forall (fun i => isRunning i = true) running ->
  Run isInstanceLookup (Forall (fun i => isRunning i = true))
      (scanAttachments c nodeName running atts h) h.
Proof.
  induction atts as [|a atts IH]; intros running h Hr.
  - apply Run_here. now intros l [= <-].
  - simpl scanAttachments.
    destruct (VnicAttachment_State a =? ResourceAttached)%string;
      [|now apply IH].
    unfold GetVnic. rewrite bind_call_cases.
    destruct (GetVnic_ (Client c) h (VnicAttachment_VnicID a)) as [e|vnic];
      [now apply Run_failed|].
    apply Run_step with (ev := CallGetVnic (VnicAttachment_VnicID a));
      [reflexivity|].
    destruct (vnicIsNode nodeName vnic); [|now apply IH].
    unfold GetInstance. rewrite bind_call_cases.
    destruct (GetInstance_ (Client c) (h ++ [CallGetVnic _])
                (VnicAttachment_InstanceID a)) as [e|instance];
      [now apply Run_failed|].
    apply Run_step
      with (ev := CallGetInstance (VnicAttachment_InstanceID a));
      [reflexivity|].
    destruct (isRunning instance) eqn:E; apply IH; auto.
    now apply Forall_snoc.
Qed.

Lemma vnicScanLoop_run nodeName fuel : forall opts running h,
  Forall (fun i => isRunning i = true) running ->
  Run isInstanceLookup (Forall (fun i => isRunning i = true))
      (vnicScanLoop c fuel nodeName opts running h) h.
Proof.
  induction fuel as [|fuel IH]; intros opts running h Hr.
  - apply Run_here. discriminate.
  - simpl vnicScanLoop. unfold ListVnicAttachments.
    rewrite bind_call_cases.
    destruct (ListVnicAttachments_ (Client c) h (compartmentOCID c)
                (Some opts)) as [e|r]; [now apply Run_failed|].
    apply Run_step
      with (ev := CallListVnicAttachments (compartmentOCID c) (Some opts));
      [reflexivity|].
    eapply Run_trans; [now apply scanAttachments_run|].
    intros running' h' Hr'.
    destruct (SetNextPageOption (AttachmentPage_NextPage r)
                (ListVnicAttachments_Page opts)) as [[|] page].
    + now apply IH.
    + apply Run_here. now intros a [= <-].
Qed.

Lemma findInstanceByNodeNameIsVnic_run fuel nodeName h :
  Run isInstanceLookup (fun i => isRunning i = true)
      (findInstanceByNodeNameIsVnic c fuel nodeName h) h.
Proof.
  unfold findInstanceByNodeNameIsVnic.
  eapply Run_trans; [apply vnicScanLoop_run; constructor|].
  intros running h' Hr.
  destruct running as [|i [|j l]]; apply Run_here; try discriminate.
  intros a [= <-]. now inversion Hr.
Qed.

Lemma GetInstanceByNodeName_run fuel nodeName h :
  Run isInstanceLookup (fun i => isRunning i = true)
      (GetInstanceByNodeName c fuel nodeName h) h.
Proof.
  unfold GetInstanceByNodeName.
  destruct (nodeName =? "")%string; [apply Run_here; discriminate|].
  eapply Run_trans; [apply listInstancesLoop_run; constructor|].
  intros running h' Hr.
  destruct running as [|i [|j l]].
  - apply findInstanceByNodeNameIsVnic_run.
  - apply Run_here. intros a [= <-]. now inversion Hr.
  - apply Run_here. discriminate.
Qed.

End AnyBackend.

(** X1.  Whatever the backend answers and however the pages end,
    GetInstanceByNodeName only ever lists instances, lists vnic attachments
    and fetches vnics and instances, and an instance it returns is in the
    Running state; with a blank node name it fails with the blank-name
    error and makes no call at all. *)
Theorem GetInstanceByNodeName_only_running c fuel nodeName h :
  (exists calls,
      snd (GetInstanceByNodeName c fuel nodeName h) = h ++ calls
      /\ forallb isInstanceLookup calls = true
      /\ (nodeName = "" -> calls = [])
      /\ forall i,
           fst (GetInstanceByNodeName c fuel nodeName h) = Returned i ->
           Instance_State i = ResourceRunning /\ nodeName <> "")
  /\ (nodeName = "" ->
      fst (GetInstanceByNodeName c fuel nodeName h)
      = Failed (Errorf "blank nodeName passed to getInstanceByNodeName()"
                       [])).
Proof.
  split.
  - destruct (String.eqb_spec nodeName "") as [->|N].
    + exists []. simpl. rewrite app_nil_r. repeat split; auto; discriminate.
    + destruct (GetInstanceByNodeName_run c fuel nodeName h)
        as (calls & E & Hok & Hg).
      exists calls. repeat split; auto; try contradiction.
      apply String.eqb_eq. now apply Hg.
  - intros ->. reflexivity.
Qed.

(** ** What the other lookups do against any backend *)

Lemma firstNamed_named name lbs lb :
  firstNamed name lbs = Some lb -> LoadBalancer_DisplayName lb = name.
Proof.
  induction lbs as [|x lbs IH]; simpl; [discriminate|].
  destruct (String.eqb_spec (LoadBalancer_DisplayName x) name) as [E|N].
  - now intros [= <-].
  - exact IH.
Qed.

Lemma loadBalancerLoop_run c name fuel : forall opts h,
  Run (isLoadBalancerListing (compartmentOCID c))
      (fun lb => LoadBalancer_DisplayName lb = name)
      (loadBalancerLoop c fuel name opts h) h.
Proof.
  induction fuel as [|fuel IH]; intros opts h.
  - apply Run_here. discriminate.
  - simpl loadBalancerLoop. unfold ListLoadBalancers.
    rewrite bind_call_cases.
    assert (Hev : isLoadBalancerListing (compartmentOCID c)
                    (CallListLoadBalancers (compartmentOCID c) opts) = true)
      by (simpl; apply String.eqb_refl).
    destruct (ListLoadBalancers_ (Client c) h (compartmentOCID c) opts)
      as [e|r]; [now apply Run_failed|].
    apply Run_step
      with (ev := CallListLoadBalancers (compartmentOCID c) opts);
      [assumption|].
    destruct (firstNamed name (LoadBalancers r)) as [lb|] eqn:E.
    + apply Run_here. intros a [= <-]. eapply firstNamed_named; eassumption.
    + destruct (SetNextPageOption (LoadBalancerPage_NextPage r)
                  (ListOptions_Page opts)) as [[|] page].
      * apply IH.
      * apply Run_here. discriminate.
Qed.

(** X2.  Whatever the backend answers, GetLoadBalancerByName only lists
    the load balancers of the client's compartment, and a load balancer it
    returns has the display name that was asked for. *)
Theorem GetLoadBalancerByName_has_name c fuel name h :
  exists calls,
    snd (GetLoadBalancerByName c fuel name h) = h ++ calls
    /\ forallb (isLoadBalancerListing (compartmentOCID c)) calls = true
    /\ forall lb,
         fst (GetLoadBalancerByName c fuel name h) = Returned lb ->
         LoadBalancer_DisplayName lb = name.
Proof. apply loadBalancerLoop_run. Qed.

Lemma collectVnics_run c compartment id atts : forall vnics h,
  Forall (fun v => isAvailable v = true) vnics ->
  Run (isVnicLookupFor compartment id)
      (Forall (fun v => isAvailable v = true))
      (collectVnics c vnics atts h) h.
Proof.
  induction atts as [|a atts IH]; intros vnics h Hv.
  - apply Run_here. now intros l [= <-].
  - simpl collectVnics.
    destruct (negb (VnicAttachment_State a =? ResourceAttached)%string);
      [now apply IH|].
    unfold GetVnic. rewrite bind_call_cases.
    destruct (GetVnic_ (Client c) h (VnicAttachment_VnicID a)) as [e|v];
      [now apply Run_failed|].
    apply Run_step with (ev := CallGetVnic (VnicAttachment_VnicID a));
      [reflexivity|].
    change (Vnic_State v =? ResourceAvailable)%string with (isAvailable v).
    destruct (isAvailable v) eqn:E; simpl; apply IH; auto.
    now apply Forall_snoc.
Qed.

Lemma attachedVnicsLoop_run c id fuel : forall cur vnics h,
  Forall (fun v => isAvailable v = true) vnics ->
  Run (isVnicLookupFor (compartmentOCID c) id)
      (Forall (fun v => isAvailable v = true))
      (attachedVnicsLoop c fuel (attachmentOpts id cur) vnics h) h.
Proof.
  induction fuel as [|fuel IH]; intros cur vnics h Hv.
  - apply Run_here. discriminate.
  - simpl attachedVnicsLoop. unfold ListVnicAttachments.
    rewrite bind_call_cases.
    assert (Hev : isVnicLookupFor (compartmentOCID c) id
                    (CallListVnicAttachments (compartmentOCID c)
                       (Some (attachmentOpts id cur))) = true)
      by (simpl; now rewrite !String.eqb_refl).
    destruct (ListVnicAttachments_ (Client c) h (compartmentOCID c)
                (Some (attachmentOpts id cur))) as [e|r];
      [now apply Run_failed|].
    eapply Run_step; [exact Hev|].
    eapply Run_trans; [now apply collectVnics_run|].
    intros vnics' h' Hv'.
    match goal with
    | |- context [SetNextPageOption ?a ?b] =>
        destruct (SetNextPageOption a b) as [[|] [page]]
    end.
    + exact (IH page vnics' h' Hv').
    + apply Run_here. now intros a [= <-].
Qed.

(** X3.  Whatever the backend answers, GetAttachedVnicsForInstance only
    lists the vnic attachments of the given instance in the client's
    compartment and fetches vnics, and every vnic it returns is in the
    Available state; with a blank instance id it fails before any call. *)
Theorem GetAttachedVnicsForInstance_only_available c fuel id h :
  (exists calls,
      snd (GetAttachedVnicsForInstance c fuel id h) = h ++ calls
      /\ forallb (isVnicLookupFor (compartmentOCID c) id) calls = true
      /\ (id = "" -> calls = [])
      /\ forall vnics,
           fst (GetAttachedVnicsForInstance c fuel id h) = Returned vnics ->
           Forall (fun v => Vnic_State v = ResourceAvailable) vnics)
  /\ (id = "" ->
      fst (GetAttachedVnicsForInstance c fuel id h)
      = Failed (Errorf
          "blank instance id passed to getVincesForAttachedInstance()" [])).
Proof.
  split.
  - destruct (String.eqb_spec id "") as [->|N].
    + exists []. simpl. rewrite app_nil_r. repeat split; auto; discriminate.
    + unfold GetAttachedVnicsForInstance.
      apply String.eqb_neq in N. rewrite N. fold (attachmentOpts id "").
      destruct (attachedVnicsLoop_run c id fuel "" [] h (Forall_nil _))
        as (calls & E & Hok & Hg).
      exists calls. repeat split; auto.
      * intros ->. discriminate.
      * intros vnics Hr. specialize (Hg vnics Hr).
        eapply Forall_impl; [|exact Hg].
        intros v Hv. now apply String.eqb_eq.
  - intros ->. reflexivity.
Qed.

(** ** AwaitWorkRequest against any backend *)

Section AwaitAnyBackend.

Variable c : client.
Variable id : string.

Let condition : M (option WorkRequest) :=
  twr <- GetWorkRequest c id ;;
  if (WorkRequest_State twr =? WorkRequestSucceeded)%string
  then ret (Some twr)
  else if (WorkRequest_State twr =? WorkRequestFailed)%string
  then fail (Errorf "WorkRequest %q failed: %s"
                    [OpString id; OpString (WorkRequest_Message twr)])
  else ret None.

Lemma poll_last_answer steps : forall h,
  exists n,
    n <= steps /\ (1 <= steps -> 1 <= n)
    /\ snd (wait.poll steps condition h) = h ++ poll id n
    /\ fst (wait.poll steps condition h) <> OutOfFuel
    /\ forall wr,
         fst (wait.poll steps condition h) = Returned wr ->
         WorkRequest_State wr = WorkRequestSucceeded
         /\ exists m, n = S m
              /\ GetWorkRequest_ (Client c) (h ++ poll id m) id = inr wr.
Proof.
  induction steps as [|steps IH]; intros h.
  - exists 0. unfold poll. simpl. rewrite app_nil_r.
    repeat split; auto; try lia; discriminate.
  - cbn [wait.poll]. rewrite bind_cases.
    destruct (GetWorkRequest_ (Client c) h id) as [e|wr] eqn:E.
    + assert (Hc : condition h = (Failed e, h ++ [CallGetWorkRequest id]))
        by exact (condition_error c id h e E).
      rewrite Hc. exists 1. simpl.
      repeat split; auto; try lia; discriminate.
    + destruct (String.eqb_spec (WorkRequest_State wr) WorkRequestSucceeded)
        as [Hs|Hs].
      * assert (Hc : condition h
                     = (Returned (Some wr), h ++ [CallGetWorkRequest id]))
          by exact (condition_succeeded c id h wr E Hs).
        rewrite Hc. exists 1. simpl.
        split; [lia|]. split; [lia|]. split; [reflexivity|].
        split; [discriminate|].
        intros wr' [= <-]. split; [assumption|].
        exists 0. unfold poll. simpl. now rewrite app_nil_r.
      * destruct (String.eqb_spec (WorkRequest_State wr) WorkRequestFailed)
          as [Hf|Hf].
        -- assert (Hc : condition h
                        = (Failed (Errorf "WorkRequest %q failed: %s"
                                     [OpString id;
                                      OpString (WorkRequest_Message wr)]),
                           h ++ [CallGetWorkRequest id]))
             by exact (condition_failed c id h wr E Hf).
           rewrite Hc. exists 1. simpl.
           repeat split; auto; try lia; discriminate.
        -- assert (Hc : condition h
                        = (Returned None, h ++ [CallGetWorkRequest id]))
             by exact (condition_in_progress c id h wr E (conj Hs Hf)).
           rewrite Hc.
           destruct (IH (h ++ [CallGetWorkRequest id]))
             as (n & Hn & _ & Htr & Hno & Hret).
           exists (S n). split; [lia|]. split; [lia|]. split; [|split].
           ++ rewrite Htr, <- app_assoc. reflexivity.
           ++ exact Hno.
           ++ intros wr' Hwr'.
              destruct (Hret wr' Hwr') as (Hs' & m & -> & Hm).
              split; [assumption|]. exists (S m). split; [reflexivity|].
              rewrite <- app_assoc in Hm. exact Hm.
Qed.

End AwaitAnyBackend.

(** X4.  Whatever the backend answers, AwaitWorkRequest polls the work
    request at least once and at most 15 times and makes no other call, it
    always ends, and a work request it returns is the answer of its last
    poll and is in the Succeeded state. *)
Theorem AwaitWorkRequest_bounded c id h :
  exists n,
    1 <= n <= 15
    /\ snd (AwaitWorkRequest c id h) = h ++ poll id n
    /\ fst (AwaitWorkRequest c id h) <> OutOfFuel
    /\ forall wr,
         fst (AwaitWorkRequest c id h) = Returned wr ->
         WorkRequest_State wr = WorkRequestSucceeded
         /\ GetWorkRequest_ (Client c) (h ++ poll id (n - 1)) id = inr wr.
Proof.
  destruct (poll_last_answer c id 15 h)
    as (n & Hn & Hpos & Htr & Hno & Hret).
  exists n. split; [|split; [exact Htr | split; [exact Hno|]]].
  - split; [apply Hpos; lia | assumption].
  - intros wr Hwr. destruct (Hret wr Hwr) as (Hs & m & -> & Hm).
    split; [assumption|]. now replace (S m - 1) with m by lia.
Qed.

(** ** GetInstanceByNodeName: both stages, and a listing that fails *)

(** X5.  For a non-blank node name whose display-name pages hold no Running
    instance, GetInstanceByNodeName goes on to scan the vnic attachments:
    after the instance listing calls come the calls of the scan, and the
    result is decided by the Running owners of the matching Attached
    attachments, not-found for none, the instance for one, the error that
    reports their number for more. *)
Theorem GetInstanceByNodeName_falls_back vnicOf instanceOf c nodeName
    ips aps fuel h :
  nodeName <> "" ->
  instancePages c nodeName "" ips ->
  filter isRunning (flat_map Instances ips) = [] ->
  attachmentPages c "" "" aps ->
  servesVnics vnicOf c (flat_map Attachments aps) ->
  servesInstances vnicOf instanceOf c nodeName (flat_map Attachments aps) ->
  List.length ips <= fuel -> List.length aps <= fuel ->
  GetInstanceByNodeName c fuel nodeName h
  = (match keptInstances vnicOf instanceOf nodeName
             (flat_map Attachments aps) with
     | [] =>
         Failed (SearchError
                   (Sprintf "could not find instance for node name %q"
                            [OpString nodeName])
                   true)
     | [i] => Returned i
     | kept =>
         Failed (Errorf
                   "expected one instance vnic ip/hostname %q but got %d"
                   [OpString nodeName; OpInt (List.length kept)])
     end,
     (h ++ instanceCalls c nodeName "" ips)
     ++ vnicScanCalls vnicOf c nodeName "" aps).
Proof.
  intros Hn HI Hnone HA HV HS Hfi Hfa.
  rewrite (GetInstanceByNodeName_stage1 c nodeName ips) by assumption.
  rewrite Hnone. unfold findInstanceByNodeNameIsVnic.
  fold (attachmentOpts "" "").
  erewrite bind_returned by (apply vnicScanLoop_pages; eassumption).
  cbn [app].
  now destruct (keptInstances vnicOf instanceOf nodeName
                  (flat_map Attachments aps)) as [|i [|j l]].
Qed.

Lemma GetInstanceByNodeName_falls_back_witness :
  GetInstanceByNodeName Example.c 2 "db-1.ad1.k8sdns.oraclevcn.com" []
  = (Returned Example.db1,
     [CallListInstances Example.demo
        (instanceOpts "db-1.ad1.k8sdns.oraclevcn.com" "");
      CallListVnicAttachments Example.demo (Some (attachmentOpts "" ""));
      CallGetVnic "v1";
      CallListVnicAttachments Example.demo (Some (attachmentOpts "" "a-2"));
      CallGetVnic "v2"; CallGetInstance "ocid1.instance.db1";
      CallGetVnic "v4"]).
Proof.
  apply (GetInstanceByNodeName_falls_back Example.vnicOf Example.instanceOf
           Example.c "db-1.ad1.k8sdns.oraclevcn.com"
           [Example.listInstances "db-1.ad1.k8sdns.oraclevcn.com" ""]
           [Example.listVnicAttachments Example.demo
              (Some (attachmentOpts "" ""));
            Example.listVnicAttachments Example.demo
              (Some (attachmentOpts "" "a-2"))] 2 []).
  - discriminate.
  - apply Paged_last; reflexivity.
  - reflexivity.
  - apply Paged_more; [reflexivity | discriminate |].
    apply Paged_last; reflexivity.
  - intros a h _ _. reflexivity.
  - intros a h _ _ _. reflexivity.
  - simpl. lia.
  - simpl. lia.
Defined.

Lemma listInstancesLoop_fails c name ps e : forall cur running h fuel,
  PagedThenFails InstancePage_NextPage
    (fun cur h => ListInstances_ (Client c) h (compartmentOCID c)
                    (instanceOpts name cur)) cur ps e ->
  List.length ps < fuel ->
  listInstancesLoop c fuel (instanceOpts name cur) running h
  = (Failed e,
     (h ++ instanceCalls c name cur ps)
     ++ [CallListInstances (compartmentOCID c)
           (instanceOpts name (cursorAfter InstancePage_NextPage cur ps))]).
Proof.
  induction ps as [|p ps IH]; intros cur running h fuel HP Hf;
    (destruct fuel as [|fuel]; [simpl in Hf; lia|]);
    simpl listInstancesLoop; unfold ListInstances;
    inversion HP as [cur' e' Hfetch | cur' p' ps' e' Hfetch Hnext Hrest];
    subst.
  - rewrite (bind_call_failed _ _ _ _ e) by apply Hfetch.
    unfold instanceCalls. simpl. now rewrite app_nil_r.
  - rewrite (bind_call _ _ _ _ p) by apply Hfetch.
    rewrite SetNextPageOption_more by assumption.
    simpl ListInstances_DisplayName.
    fold (instanceOpts name (InstancePage_NextPage p)).
    rewrite IH by (assumption || (simpl in Hf; lia)).
    unfold instanceCalls. simpl. now rewrite <- !app_assoc.
Qed.

(** X6.  When the instance listing of a non-blank node name answers some
    pages and then fails, GetInstanceByNodeName fails with that very error
    right after the failing call: the instances of the pages read so far
    are dropped and the vnic-scan stage is not entered. *)
Theorem GetInstanceByNodeName_listing_fails c nodeName ps e fuel h :
  nodeName <> "" ->
  PagedThenFails InstancePage_NextPage
    (fun cur h => ListInstances_ (Client c) h (compartmentOCID c)
                    (instanceOpts nodeName cur)) "" ps e ->
  List.length ps < fuel ->
  GetInstanceByNodeName c fuel nodeName h
  = (Failed e,
     (h ++ instanceCalls c nodeName "" ps)
     ++ [CallListInstances (compartmentOCID c)
           (instanceOpts nodeName
              (cursorAfter InstancePage_NextPage "" ps))])
  /\ filter isFallbackCall
       (instanceCalls c nodeName "" ps
        ++ [CallListInstances (compartmentOCID c)
              (instanceOpts nodeName
                 (cursorAfter InstancePage_NextPage "" ps))]) = [].
Proof.
  intros Hn HP Hf. split.
  - unfold GetInstanceByNodeName.
    destruct (String.eqb_spec nodeName ""); [contradiction|].
    fold (instanceOpts nodeName "").
    erewrite bind_failed by (apply listInstancesLoop_fails; eassumption).
    reflexivity.
  - rewrite filter_app, instanceCalls_no_fallback. reflexivity.
Qed.

Lemma GetInstanceByNodeName_listing_fails_witness :
  GetInstanceByNodeName Broken.c 5 "web-1" []
  = (Failed (SdkError "request timed out"),
     [CallListInstances Example.demo (instanceOpts "web-1" "");
      CallListInstances Example.demo (instanceOpts "web-1" "i2")]).
Proof.
  apply (GetInstanceByNodeName_listing_fails Broken.c "web-1"
           [Example.listInstances "web-1" ""]
           (SdkError "request timed out") 5 []).
  - discriminate.
  - apply Fails_later; [reflexivity | discriminate |].
    apply Fails_now. reflexivity.
  - simpl. lia.
Defined.

(** ** The vnic scan when a vnic cannot be fetched *)

Section ScanFailure.

Variable vnicOf : string -> Vnic.
Variable instanceOf : string -> Instance.
Variable c : client.
Variable nodeName : string.

Lemma scanAttachments_vnic_fails before a after e : forall running h,
  servesVnics vnicOf c before ->
  servesInstances vnicOf instanceOf c nodeName before ->
  isAttached a = true ->
  (forall h, GetVnic_ (Client c) h (VnicAttachment_VnicID a) = inl e) ->
  scanAttachments c nodeName running (before ++ a :: after) h
  = (Failed e,
     h ++ scanCalls vnicOf nodeName before
       ++ [CallGetVnic (VnicAttachment_VnicID a)]).
Proof.
  intros running h HV HI Ha He. revert running h.
  induction before as [|b before IH]; intros running h.
  - simpl. change (VnicAttachment_State a =? ResourceAttached)%string
      with (isAttached a). rewrite Ha. unfold GetVnic.
    now rewrite (bind_call_failed _ _ _ _ e) by apply He.
  - destruct (servesVnics_app vnicOf c [b] before HV) as [HVb HVr].
    destruct (servesInstances_app vnicOf instanceOf c nodeName [b] before HI)
      as [HIb HIr].
    specialize (IH HVr HIr).
    simpl. change (VnicAttachment_State b =? ResourceAttached)%string
      with (isAttached b).
    destruct (isAttached b) eqn:Eb; [|apply IH].
    unfold GetVnic.
    rewrite (bind_call _ _ _ _ (vnicOf (VnicAttachment_VnicID b)))
      by (apply HVb; simpl; auto).
    destruct (vnicIsNode nodeName (vnicOf (VnicAttachment_VnicID b)))
      eqn:Em.
    + unfold GetInstance.
      rewrite (bind_call _ _ _ _ (instanceOf (VnicAttachment_InstanceID b)))
        by (apply HIb; simpl; auto).
      destruct (isRunning (instanceOf (VnicAttachment_InstanceID b)));
        rewrite IH; simpl; now rewrite <- !app_assoc.
    + rewrite IH. simpl. now rewrite <- !app_assoc.
Qed.

Lemma vnicScanLoop_vnic_fails ps p before a after e :
  forall cur running h fuel,
  PagedPrefix AttachmentPage_NextPage
    (fun cur h => ListVnicAttachments_ (Client c) h (compartmentOCID c)
                    (Some (attachmentOpts "" cur))) cur ps ->
  (forall h, ListVnicAttachments_ (Client c) h (compartmentOCID c)
               (Some (attachmentOpts ""
                        (cursorAfter AttachmentPage_NextPage cur ps)))
             = inr p) ->
  Attachments p = before ++ a :: after ->
  servesVnics vnicOf c (flat_map Attachments ps ++ before) ->
  servesInstances vnicOf instanceOf c nodeName
    (flat_map Attachments ps ++ before) ->
  isAttached a = true ->
  (forall h, GetVnic_ (Client c) h (VnicAttachment_VnicID a) = inl e) ->
  List.length ps < fuel ->
  vnicScanLoop c fuel nodeName (attachmentOpts "" cur) running h
  = (Failed e,
     (h ++ vnicScanCalls vnicOf c nodeName cur ps)
     ++ CallListVnicAttachments (compartmentOCID c)
          (Some (attachmentOpts ""
                   (cursorAfter AttachmentPage_NextPage cur ps)))
        :: scanCalls vnicOf nodeName before
        ++ [CallGetVnic (VnicAttachment_VnicID a)]).
Proof.
  induction ps as [|q ps IH]; intros cur running h fuel HP Hp Hatt HV HI
    Ha He Hf; (destruct fuel as [|fuel]; [simpl in Hf; lia|]);
    simpl vnicScanLoop; unfold ListVnicAttachments.
  - simpl in *. rewrite (bind_call _ _ _ _ p) by apply Hp.
    rewrite Hatt.
    erewrite bind_failed
      by (apply scanAttachments_vnic_fails; eassumption).
    now rewrite app_nil_r, <- app_assoc.
  - inversion HP as [|cur' q' ps' Hfetch Hnext Hrest]; subst.
    simpl flat_map in *. rewrite <- app_assoc in HV, HI.
    destruct (servesVnics_app _ _ _ _ HV) as [HVq HVr].
    destruct (servesInstances_app _ _ _ _ _ _ HI) as [HIq HIr].
    rewrite (bind_call _ _ _ _ q) by apply Hfetch.
    erewrite bind_returned by (apply scanAttachments_kept; eassumption).
    rewrite SetNextPageOption_more by assumption.
    simpl ListVnicAttachments_InstanceID.
    fold (attachmentOpts "" (AttachmentPage_NextPage q)).
    assert (Hf' : List.length ps < fuel) by (simpl in Hf; lia).
    rewrite (IH (AttachmentPage_NextPage q) _ _ fuel Hrest Hp Hatt HVr HIr
               Ha He Hf').
    simpl. rewrite <- !app_assoc. simpl. now rewrite <- !app_assoc.
Qed.

End ScanFailure.

(** X7.  In the vnic-scan stage, when the vnic of an Attached attachment
    cannot be fetched, findInstanceByNodeNameIsVnic fails with the error of
    that fetch and stops there: the attachments after it are not looked
    at, and instances found before it are dropped. *)
Theorem findInstanceByNodeNameIsVnic_vnic_fails vnicOf instanceOf c nodeName
    ps p before a after e fuel h :
  PagedPrefix AttachmentPage_NextPage
    (fun cur h => ListVnicAttachments_ (Client c) h (compartmentOCID c)
                    (Some (attachmentOpts "" cur))) "" ps ->
  (forall h, ListVnicAttachments_ (Client c) h (compartmentOCID c)
               (Some (attachmentOpts ""
                        (cursorAfter AttachmentPage_NextPage "" ps)))
             = inr p) ->
  Attachments p = before ++ a :: after ->
  servesVnics vnicOf c (flat_map Attachments ps ++ before) ->
  servesInstances vnicOf instanceOf c nodeName
    (flat_map Attachments ps ++ before) ->
  isAttached a = true ->
  (forall h, GetVnic_ (Client c) h (VnicAttachment_VnicID a) = inl e) ->
  List.length ps < fuel ->
  findInstanceByNodeNameIsVnic c fuel nodeName h
  = (Failed e,
     (h ++ vnicScanCalls vnicOf c nodeName "" ps)
     ++ CallListVnicAttachments (compartmentOCID c)
          (Some (attachmentOpts ""
                   (cursorAfter AttachmentPage_NextPage "" ps)))
        :: scanCalls vnicOf nodeName before
        ++ [CallGetVnic (VnicAttachment_VnicID a)]).
Proof.
  intros HP Hp Hatt HV HI Ha He Hf.
  unfold findInstanceByNodeNameIsVnic. fold (attachmentOpts "" "").
  erewrite bind_failed
    by (eapply vnicScanLoop_vnic_fails; eassumption).
  reflexivity.
Qed.

Lemma findInstanceByNodeNameIsVnic_vnic_fails_witness :
  findInstanceByNodeNameIsVnic Broken.c 3 "web-1.ad1.k8sdns.oraclevcn.com" []
  = (Failed (SdkError "vnic not found"),
     [CallListVnicAttachments Example.demo (Some (attachmentOpts "" ""));
      CallGetVnic "v1"; CallGetInstance "ocid1.instance.web1";
      CallListVnicAttachments Example.demo (Some (attachmentOpts "" "a-2"));
      CallGetVnic "v2"]).
Proof.
  apply (findInstanceByNodeNameIsVnic_vnic_fails Example.vnicOf
           Example.instanceOf Broken.c "web-1.ad1.k8sdns.oraclevcn.com"
           [Example.listVnicAttachments Example.demo
              (Some (attachmentOpts "" ""))]
           (Example.listVnicAttachments Example.demo
              (Some (attachmentOpts "" "a-2")))
           [] Example.att2 [Example.att4]
           (SdkError "vnic not found") 3 []).
  - apply Prefix_cons; [reflexivity | discriminate | apply Prefix_nil].
  - reflexivity.
  - reflexivity.
  - intros a h Hin Ha. simpl in Hin.
    destruct Hin as [<-|[<-|[]]]; [reflexivity | discriminate Ha].
  - intros a h _ _ _. reflexivity.
  - reflexivity.
  - reflexivity.
  - simpl. lia.
Defined.

(** ** The create-and-await operations when something fails *)

(** X8.  In each of the three create-and-await operations an error of the
    mutating call is returned at once, with no poll and no read after it;
    and an error of AwaitWorkRequest (a failed work request, a failed poll
    or the timeout) is returned as it is, with no read of the resource
    after it. *)
Theorem create_and_await_errors (c : client) :
  (forall name shape subnets h e,
      CreateLoadBalancer_ (Client c) h (compartmentOCID c) shape subnets name
      = inl e ->
      CreateAndAwaitLoadBalancer c name shape subnets h
      = (Failed e,
         h ++ [CallCreateLoadBalancer (compartmentOCID c) shape subnets
                 name]))
  /\ (forall name shape subnets h req e h1,
      CreateLoadBalancer_ (Client c) h (compartmentOCID c) shape subnets name
      = inr req ->
      AwaitWorkRequest c req
        (h ++ [CallCreateLoadBalancer (compartmentOCID c) shape subnets name])
      = (Failed e, h1) ->
      CreateAndAwaitLoadBalancer c name shape subnets h = (Failed e, h1))
  /\ (forall lb bs h e,
      CreateBackendSet_ (Client c) h (LoadBalancer_ID lb)
        (BackendSet_Name bs) (BackendSet_Policy bs) (BackendSet_Backends bs)
        (BackendSet_HealthChecker bs) (BackendSet_SSLConfig bs)
        (BackendSet_SessionPersistenceConfig bs)
      = inl e ->
      CreateAndAwaitBackendSet c lb bs h
      = (Failed e, h ++ [createBackendSetCall lb bs]))
  /\ (forall lb bs h wr e h1,
      CreateBackendSet_ (Client c) h (LoadBalancer_ID lb)
        (BackendSet_Name bs) (BackendSet_Policy bs) (BackendSet_Backends bs)
        (BackendSet_HealthChecker bs) (BackendSet_SSLConfig bs)
        (BackendSet_SessionPersistenceConfig bs)
      = inr wr ->
      AwaitWorkRequest c wr (h ++ [createBackendSetCall lb bs])
      = (Failed e, h1) ->
      CreateAndAwaitBackendSet c lb bs h = (Failed e, h1))
  /\ (forall lb listener h e,
      CreateListener_ (Client c) h (LoadBalancer_ID lb)
        (Listener_Name listener) (Listener_DefaultBackendSetName listener)
        (Listener_Protocol listener) (Listener_Port listener)
        (Listener_SSLConfig listener)
      = inl e ->
      CreateAndAwaitListener c lb listener h
      = (Failed e, h ++ [createListenerCall lb listener]))
  /\ (forall lb listener h wr e h1,
      CreateListener_ (Client c) h (LoadBalancer_ID lb)
        (Listener_Name listener) (Listener_DefaultBackendSetName listener)
        (Listener_Protocol listener) (Listener_Port listener)
        (Listener_SSLConfig listener)
      = inr wr ->
      AwaitWorkRequest c wr (h ++ [createListenerCall lb listener])
      = (Failed e, h1) ->
      CreateAndAwaitListener c lb listener h = (Failed e, h1)).
Proof.
  repeat split.
  - intros name shape subnets h e Hc.
    unfold CreateAndAwaitLoadBalancer, CreateLoadBalancer.
    now rewrite (bind_call_failed _ _ _ _ e) by assumption.
  - intros name shape subnets h req e h1 Hc Ha.
    unfold CreateAndAwaitLoadBalancer, CreateLoadBalancer.
    rewrite (bind_call _ _ _ _ req) by assumption.
    now erewrite bind_failed by eassumption.
  - intros lb bs h e Hc.
    unfold CreateAndAwaitBackendSet, CreateBackendSet.
    now rewrite (bind_call_failed _ _ _ _ e) by assumption.
  - intros lb bs h wr e h1 Hc Ha.
    unfold CreateAndAwaitBackendSet, CreateBackendSet.
    rewrite (bind_call _ _ _ _ wr) by assumption.
    now erewrite bind_failed by eassumption.
  - intros lb listener h e Hc.
    unfold CreateAndAwaitListener, CreateListener.
    now rewrite (bind_call_failed _ _ _ _ e) by assumption.
  - intros lb listener h wr e h1 Hc Ha.
    unfold CreateAndAwaitListener, CreateListener.
    rewrite (bind_call _ _ _ _ wr) by assumption.
    now erewrite bind_failed by eassumption.
Qed.

Lemma create_and_await_errors_witness :
  CreateAndAwaitLoadBalancer Broken.c "lb-a" "100Mbps" ["s1"] []
  = (Failed (SdkError "limit exceeded"),
     [CallCreateLoadBalancer Example.demo "100Mbps" ["s1"] "lb-a"])
  /\ CreateAndAwaitBackendSet Broken.c Example.lbA
       {| BackendSet_Name := "web";
          BackendSet_Policy := DefaultLoadBalancerPolicy;
          BackendSet_Backends := []; BackendSet_HealthChecker := None;
          BackendSet_SSLConfig := None;
          BackendSet_SessionPersistenceConfig := None |} []
     = (Failed (Errorf "WorkRequest %q failed: %s"
                       [OpString "wr-bad"; OpString "out of capacity"]),
        [CallCreateBackendSet "ocid1.lb.1" "web" "ROUND_ROBIN" [] None None
           None;
         CallGetWorkRequest "wr-bad"; CallGetWorkRequest "wr-bad"]).
Proof.
  split.
  - exact (proj1 (create_and_await_errors Broken.c)
             "lb-a" "100Mbps" ["s1"] [] (SdkError "limit exceeded")
             eq_refl).
  - exact (proj1 (proj2 (proj2 (proj2 (create_and_await_errors Broken.c))))
             Example.lbA
             {| BackendSet_Name := "web";
                BackendSet_Policy := DefaultLoadBalancerPolicy;
                BackendSet_Backends := []; BackendSet_HealthChecker := None;
                BackendSet_SSLConfig := None;
                BackendSet_SessionPersistenceConfig := None |}
             [] "wr-bad"
             (Errorf "WorkRequest %q failed: %s"
                     [OpString "wr-bad"; OpString "out of capacity"])
             [CallCreateBackendSet "ocid1.lb.1" "web" "ROUND_ROBIN" [] None
                None None;
              CallGetWorkRequest "wr-bad"; CallGetWorkRequest "wr-bad"]
             eq_refl eq_refl).
Defined.

(** ** GetSubnetsForInternalIPs reads one page *)

Lemma existsb_incl {A} (f : A -> bool) l l' :
  incl l l' -> existsb f l = true -> existsb f l' = true.
Proof.
  intros Hincl H. apply existsb_exists in H. destruct H as (x & Hx & Hf).
  apply existsb_exists. exists x. auto.
Qed.

Lemma resolveAttachments_first_page c ipSet p atts :
  forall subnetOCIDs subnets h,
  incl atts (Attachments p) ->
  Run (isFirstPageCall (compartmentOCID c) p) (fun _ => True)
      (resolveAttachments c ipSet subnetOCIDs subnets atts h) h.
Proof.
  induction atts as [|a atts IH]; intros seen subnets h Hincl.
  - apply Run_here. auto.
  - assert (Hrest : incl atts (Attachments p))
      by (intros x Hx; apply Hincl; now right).
    simpl resolveAttachments.
    change (VnicAttachment_State a =? ResourceAttached)%string
      with (isAttached a).
    destruct (isAttached a) eqn:Ea; [|now apply IH].
    assert (Hev : isFirstPageCall (compartmentOCID c) p
                    (CallGetVnic (VnicAttachment_VnicID a)) = true).
    { simpl. apply existsb_exists. exists a. split.
      - apply Hincl. now left.
      - now rewrite Ea, String.eqb_refl. }
    unfold GetVnic. rewrite bind_call_cases.
    destruct (GetVnic_ (Client c) h (VnicAttachment_VnicID a)) as [e|vnic];
      [now apply Run_failed|].
    eapply Run_step; [exact Hev|].
    match goal with
    | |- context [if ?b then _ else _] => destruct b
    end; [|now apply IH].
    unfold GetSubnet. rewrite bind_call_cases.
    destruct (GetSubnet_ (Client c) _ (Vnic_SubnetID vnic)) as [e|subnet];
      [now apply Run_failed|].
    eapply Run_step with (ev := CallGetSubnet (Vnic_SubnetID vnic));
      [reflexivity|].
    now apply IH.
Qed.

Lemma subnetsLoop_first_page c ipSet p :
  (forall h, ListVnicAttachments_ (Client c) h (compartmentOCID c) None
             = inr p) ->
  forall fuel opts subnetOCIDs subnets h,
  Run (isFirstPageCall (compartmentOCID c) p) (fun _ => True)
      (subnetsLoop c fuel ipSet opts subnetOCIDs subnets h) h.
Proof.
  intros Hfetch. induction fuel as [|fuel IH]; intros opts seen subnets h.
  - apply Run_here. auto.
  - cbn [subnetsLoop]. unfold ListVnicAttachments.
    rewrite (bind_call _ _ _ _ p) by apply Hfetch.
    apply Run_step
      with (ev := CallListVnicAttachments (compartmentOCID c) None);
      [simpl; apply String.eqb_refl|].
    eapply Run_trans
      with (good := fun _ : sets.String * list Subnet => True).
    + apply resolveAttachments_first_page. apply incl_refl.
    + intros st h' _.
      destruct (SetNextPageOption (AttachmentPage_NextPage p)
                  (ListVnicAttachments_Page opts)) as [[|] page].
      * apply IH.
      * apply Run_here. auto.
Qed.



(** ** GetSubnets *)

Lemma getSubnetsFrom_served subnetOf c ocids : forall subnets h,
  servesSubnets subnetOf c ocids ->
  getSubnetsFrom c subnets ocids h
  = (Returned (subnets ++ map subnetOf ocids),
     h ++ map CallGetSubnet ocids).
Proof.
  induction ocids as [|id ocids IH]; intros subnets h HS.
  - simpl. unfold ret. now rewrite !app_nil_r.
  - simpl. unfold GetSubnet.
    rewrite (bind_call _ _ _ _ (subnetOf id)) by (apply HS; now left).
    rewrite IH by (intros x h' Hx; apply HS; now right).
    now rewrite <- !app_assoc.
Qed.

Lemma getSubnetsFrom_fails subnetOf c before id after e : forall subnets h,
  servesSubnets subnetOf c before ->
  (forall h, GetSubnet_ (Client c) h id = inl e) ->
  getSubnetsFrom c subnets (before ++ id :: after) h
  = (Failed e, h ++ map CallGetSubnet before ++ [CallGetSubnet id]).
Proof.
  induction before as [|x before IH]; intros subnets h HS He.
  - simpl. unfold GetSubnet.
    now rewrite (bind_call_failed _ _ _ _ e) by apply He.
  - simpl. unfold GetSubnet.
    rewrite (bind_call _ _ _ _ (subnetOf x)) by (apply HS; now left).
    rewrite IH by (assumption || (intros y h' Hy; apply HS; now right)).
    now rewrite <- !app_assoc.
Qed.

(** X10.  GetSubnets fetches the subnets of the given ids one by one, in
    their order and without dropping a repeated id, and returns them in
    that order; when a fetch fails it fails with that error at once,
    fetching none of the ids after it and returning none of the subnets
    before it. *)
Theorem GetSubnets_in_order subnetOf c ocids h :
  (servesSubnets subnetOf c ocids ->
   GetSubnets c ocids h
   = (Returned (map subnetOf ocids), h ++ map CallGetSubnet ocids))
  /\ (forall before id after e,
      ocids = before ++ id :: after ->
      servesSubnets subnetOf c before ->
      (forall h, GetSubnet_ (Client c) h id = inl e) ->
      GetSubnets c ocids h
      = (Failed e, h ++ map CallGetSubnet before ++ [CallGetSubnet id])).
Proof.
  split.
  - intros HS. unfold GetSubnets.
    now rewrite (getSubnetsFrom_served subnetOf).
  - intros before id after e -> HS He. unfold GetSubnets.
    now apply (getSubnetsFrom_fails subnetOf).
Qed.

Lemma GetSubnets_in_order_witness :
  GetSubnets Example.c ["s2"; "s1"; "s2"] []
  = (Returned [Example.s2; Example.s1; Example.s2],
     [CallGetSubnet "s2"; CallGetSubnet "s1"; CallGetSubnet "s2"])
  /\ GetSubnets Broken.c ["s1"; "s2"; "s1"] []
     = (Failed (SdkError "subnet not found"),
        [CallGetSubnet "s1"; CallGetSubnet "s2"]).
Proof.
  split.
  - apply (proj1 (GetSubnets_in_order Example.subnetOf Example.c
                    ["s2"; "s1"; "s2"] [])).
    intros id h _. reflexivity.
  - apply (proj2 (GetSubnets_in_order Example.subnetOf Broken.c
                    ["s1"; "s2"; "s1"] [])
             ["s1"] "s2" ["s1"] (SdkError "subnet not found") eq_refl).
    + intros id h [<-|[]]. reflexivity.
    + reflexivity.
Defined.

(** ** GetNodeAddressesForInstance *)

Section AddressProofs.

Variable IP : Type.
Variable ParseIP : string -> option IP.
Variable IPString : IP -> string.

Lemma extract_either v h :
  (exists l,
      extractNodeAddressesFromVnic IP ParseIP IPString (Some v) h
      = (Returned l, h))
  \/ (exists e,
      extractNodeAddressesFromVnic IP ParseIP IPString (Some v) h
      = (Failed e, h)).
Proof.
  unfold extractNodeAddressesFromVnic, bind, ret, fail.
  destruct (Vnic_PrivateIPAddress v =? "")%string; simpl;
    [|destruct (ParseIP (Vnic_PrivateIPAddress v)); [|eauto]];
    (destruct (Vnic_PublicIPAddress v =? "")%string; simpl;
     [eauto | destruct (ParseIP (Vnic_PublicIPAddress v)); eauto]).
Qed.

Lemma extract_wellFormed v h :
  wellFormedVnic IP ParseIP v ->
  extractNodeAddressesFromVnic IP ParseIP IPString (Some v) h
  = (Returned (addressesOf IP ParseIP IPString v), h).
Proof.
  intros [Hp Hq].
  unfold extractNodeAddressesFromVnic, addressesOf, addressOf, bind, ret,
    fail.
  destruct (String.eqb_spec (Vnic_PrivateIPAddress v) "") as [Ep|Ep];
    destruct (String.eqb_spec (Vnic_PublicIPAddress v) "") as [Eq|Eq];
    simpl;
    try (destruct Hp as [Hp|Hp]; [contradiction|];
         destruct (ParseIP (Vnic_PrivateIPAddress v)); [|contradiction]);
    simpl; rewrite ?Eq; simpl;
    try (destruct (String.eqb_spec (Vnic_PublicIPAddress v) "");
         [contradiction|]);
    try (destruct Hq as [Hq|Hq]; [contradiction|];
         destruct (ParseIP (Vnic_PublicIPAddress v)); [|contradiction]);
    reflexivity.
Qed.

Lemma extract_malformed v h :
  malformed IP ParseIP (Vnic_PrivateIPAddress v)
  \/ malformed IP ParseIP (Vnic_PublicIPAddress v) ->
  exists e,
    extractNodeAddressesFromVnic IP ParseIP IPString (Some v) h
    = (Failed e, h).
Proof.
  intros Hm. destruct (extract_either v h) as [[l E]|]; [|assumption].
  exfalso. revert E.
  unfold extractNodeAddressesFromVnic, bind, ret, fail.
  destruct Hm as [[Hne Hnone]|[Hne Hnone]]; apply String.eqb_neq in Hne.
  - rewrite Hne, Hnone. discriminate.
  - destruct (Vnic_PrivateIPAddress v =? "")%string; simpl;
      [|destruct (ParseIP (Vnic_PrivateIPAddress v)); [|discriminate]];
      rewrite Hne, Hnone; discriminate.
Qed.

Lemma addressesOf_length v :
  List.length (addressesOf IP ParseIP IPString v) <= 2.
Proof.
  unfold addressesOf, addressOf. rewrite length_app.
  destruct (Vnic_PrivateIPAddress v =? "")%string;
    [|destruct (ParseIP (Vnic_PrivateIPAddress v))];
    (destruct (Vnic_PublicIPAddress v =? "")%string;
     [|destruct (ParseIP (Vnic_PublicIPAddress v))]); simpl; lia.
Qed.

Lemma extractAll_wellFormed vnics : forall addresses h,
  Forall (wellFormedVnic IP ParseIP) vnics ->
  extractAll IP ParseIP IPString addresses vnics h
  = (Returned (addresses
               ++ flat_map (addressesOf IP ParseIP IPString) vnics), h).
Proof.
  induction vnics as [|v vnics IH]; intros addresses h Hw.
  - simpl. unfold ret. now rewrite app_nil_r.
  - inversion Hw; subst. cbn [extractAll].
    erewrite bind_returned by (apply extract_wellFormed; assumption).
    rewrite IH by assumption. simpl. now rewrite app_assoc.
Qed.

Lemma extractAll_malformed vnics v : forall addresses h,
  In v vnics ->
  malformed IP ParseIP (Vnic_PrivateIPAddress v)
  \/ malformed IP ParseIP (Vnic_PublicIPAddress v) ->
  exists e,
    extractAll IP ParseIP IPString addresses vnics h = (Failed e, h).
Proof.
  induction vnics as [|x vnics IH]; intros addresses h Hin Hm;
    [contradiction|].
  cbn [extractAll].
  destruct (extract_either x h) as [[l E]|[e E]].
  - erewrite bind_returned by exact E.
    destruct Hin as [->|Hin]; [|now apply IH].
    destruct (extract_malformed v h Hm) as [e E']. congruence.
  - exists e. now erewrite bind_failed by exact E.
Qed.

Lemma flat_map_addresses_length vnics :
  List.length (flat_map (addressesOf IP ParseIP IPString) vnics)
  <= 2 * List.length vnics.
Proof.
  induction vnics as [|v vnics IH]; simpl; auto.
  rewrite length_app. pose proof (addressesOf_length v). lia.
Qed.

End AddressProofs.

(** X11.  For a non-blank instance id, over the pages of its attachments:
    when the address fields of all the Available vnics behind Attached
    attachments are empty or parse, GetNodeAddressesForInstance returns the
    records of those vnics in the order of the listing, for each vnic the
    internal record before the external one and at most two, and it makes
    no call beyond the listing and the vnic fetches; when one of those
    vnics has an address that is there and does not parse, the whole call
    fails and no address is returned. *)
Theorem GetNodeAddressesForInstance_addresses (IP : Type)
    (ParseIP : string -> option IP) (IPString : IP -> string)
    vnicOf c id ps fuel h :
  id <> "" ->
  attachmentPages c id "" ps ->
  servesVnics vnicOf c (flat_map Attachments ps) ->
  List.length ps <= fuel ->
  (Forall (wellFormedVnic IP ParseIP)
     (availableVnics vnicOf (flat_map Attachments ps)) ->
   GetNodeAddressesForInstance c IP ParseIP IPString fuel id h
   = (Returned (flat_map (addressesOf IP ParseIP IPString)
                  (availableVnics vnicOf (flat_map Attachments ps))),
      h ++ attachedVnicsCalls c id "" ps)
   /\ List.length (flat_map (addressesOf IP ParseIP IPString)
                     (availableVnics vnicOf (flat_map Attachments ps)))
      <= 2 * List.length (availableVnics vnicOf (flat_map Attachments ps)))
  /\ (forall v,
      In v (availableVnics vnicOf (flat_map Attachments ps)) ->
      malformed IP ParseIP (Vnic_PrivateIPAddress v)
      \/ malformed IP ParseIP (Vnic_PublicIPAddress v) ->
      exists e,
        GetNodeAddressesForInstance c IP ParseIP IPString fuel id h
        = (Failed e, h ++ attachedVnicsCalls c id "" ps)).
Proof.
  intros Hid HP HV Hf.
  assert (Hvnics :
            GetAttachedVnicsForInstance c fuel id h
            = (Returned (availableVnics vnicOf (flat_map Attachments ps)),
               h ++ attachedVnicsCalls c id "" ps)).
  { unfold GetAttachedVnicsForInstance.
    apply String.eqb_neq in Hid. rewrite Hid. fold (attachmentOpts id "").
    now rewrite (attachedVnicsLoop_pages vnicOf c id ps) by assumption. }
  unfold GetNodeAddressesForInstance.
  apply String.eqb_neq in Hid. rewrite Hid.
  erewrite bind_returned by exact Hvnics.
  split.
  - intros Hw. split; [|apply flat_map_addresses_length].
    now rewrite extractAll_wellFormed by assumption.
  - intros v Hin Hm. now apply extractAll_malformed with (v := v).
Qed.

Lemma GetNodeAddressesForInstance_addresses_witness :
  GetNodeAddressesForInstance Example.c Example.IPv4 Example.parseIPv4
    Example.showIPv4 1 "ocid1.instance.web1" []
  = (Returned [{| NodeAddress_Type := NodeInternalIP;
                  NodeAddress_Address := "10.0.0.5" |}],
     [CallListVnicAttachments Example.demo
        (Some (attachmentOpts "ocid1.instance.web1" ""));
      CallGetVnic "v1"; CallGetVnic "v4"]).
Proof.
  refine (proj1 (proj1 (GetNodeAddressesForInstance_addresses
            Example.IPv4 Example.parseIPv4 Example.showIPv4
            Example.vnicOf Example.c "ocid1.instance.web1"
            [Example.listVnicAttachments Example.demo
               (Some (attachmentOpts "ocid1.instance.web1" ""))]
            1 [] _ _ _ _) _)).
  - discriminate.
  - apply Paged_last; reflexivity.
  - intros a h _ _. reflexivity.
  - simpl. lia.
  - change (Forall (wellFormedVnic Example.IPv4 Example.parseIPv4)
              [Example.v1]).
    constructor; [|constructor]. split.
    + right. discriminate.
    + left. reflexivity.
Defined.

(** ** GetDefaultSecurityList *)

Module SecurityListProofs.

Import SecurityLists.

Lemma fetchLists_served get listOf ids : forall lists h,
  (forall h id, In id ids -> get h id = inr (listOf id)) ->
  fetchLists get lists ids h
  = (Returned (lists ++ map listOf ids), h ++ ids).
Proof.
  induction ids as [|id ids IH]; intros lists h Hget.
  - simpl. now rewrite !app_nil_r.
  - simpl. rewrite (Hget h id) by now left.
    rewrite IH by (intros h' x Hx; apply Hget; now right).
    now rewrite <- !app_assoc.
Qed.

Lemma fetchLists_fails get listOf before id after e : forall lists h,
  (forall h x, In x before -> get h x = inr (listOf x)) ->
  (forall h, get h id = inl e) ->
  fetchLists get lists (before ++ id :: after) h
  = (Failed e, h ++ before ++ [id]).
Proof.
  induction before as [|x before IH]; intros lists h Hget He.
  - simpl. now rewrite He.
  - simpl. rewrite (Hget h x) by now left.
    rewrite IH by (assumption || (intros h' y Hy; apply Hget; now right)).
    now rewrite <- !app_assoc.
Qed.

Lemma sorted_head_oldest sortSlice l first :
  Sorts sortSlice -> l <> [] ->
  In (hd first (sortSlice Before l)) l
  /\ forall x, In x l ->
       (SecurityList_TimeCreated (hd first (sortSlice Before l))
        <= SecurityList_TimeCreated x)%Z.
Proof.
  intros HS Hne. destruct (HS l) as [Hperm Hsorted].
  destruct (sortSlice Before l) as [|y rest] eqn:E.
  - apply Permutation_sym, Permutation_nil in Hperm. contradiction.
  - simpl. split.
    + apply (Permutation_in y (Permutation_sym Hperm)). now left.
    + intros x Hx. apply (Permutation_in x Hperm) in Hx.
      destruct Hx as [<-|Hx]; [lia|].
      apply StronglySorted_inv in Hsorted. destruct Hsorted as [_ Hall].
      rewrite Forall_forall in Hall. specialize (Hall x Hx).
      unfold Before in Hall. apply Z.ltb_ge in Hall. exact Hall.
Qed.

Lemma insert_perm x l : Permutation (x :: l) (insert Before x l).
Proof.
  induction l as [|y l IH]; simpl; auto.
  destruct (Before y x); auto.
  rewrite perm_swap. now constructor.
Qed.

Lemma insert_sorted x l :
  StronglySorted (fun a b => Before b a = false) l ->
  StronglySorted (fun a b => Before b a = false) (insert Before x l).
Proof.
  induction l as [|y l IH]; intros Hs; simpl.
  - repeat constructor.
  - apply StronglySorted_inv in Hs. destruct Hs as [Hs Hall].
    destruct (Before y x) eqn:E.
    + constructor; [now apply IH|].
      rewrite Forall_forall. intros z Hz.
      apply (Permutation_in z (Permutation_sym (insert_perm x l))) in Hz.
      destruct Hz as [<-|Hz].
      * unfold Before in *. apply Z.ltb_lt in E. apply Z.ltb_ge. lia.
      * rewrite Forall_forall in Hall. now apply Hall.
    + constructor; [now constructor|].
      constructor; [exact E|].
      rewrite Forall_forall in *. intros z Hz. specialize (Hall z Hz).
      unfold Before in *. apply Z.ltb_ge in E, Hall. apply Z.ltb_ge. lia.
Qed.

Lemma insertionSort_Sorts : Sorts insertionSort.
Proof.
  intros l. induction l as [|x l [Hperm Hsorted]]; simpl.
  - split; constructor.
  - split; [|now apply insert_sorted].
    rewrite <- insert_perm. now constructor.
Qed.

End SecurityListProofs.

(** X12.  With a sort that orders the fetched lists by creation time,
    GetDefaultSecurityList fetches the security lists of the subnet one by
    one in the order of their ids and returns one of them that no other is
    older than; a subnet with no security list gives an error and no
    fetch; and when a fetch fails the method fails with that error at once,
    without fetching the ids after it. *)
Theorem GetDefaultSecurityList_oldest get sortSlice listOf subnet h :
  SecurityLists.Sorts sortSlice ->
  (Subnet_SecurityListIDs subnet = [] ->
   SecurityLists.GetDefaultSecurityList get sortSlice subnet h
   = (Failed (Errorf "no SecurityLists found for Subnet '%s'"
                     [OpString (Subnet_ID subnet)]), h))
  /\ (Subnet_SecurityListIDs subnet <> [] ->
      (forall h id, In id (Subnet_SecurityListIDs subnet) ->
                    get h id = inr (listOf id)) ->
      exists oldest,
        SecurityLists.GetDefaultSecurityList get sortSlice subnet h
        = (Returned oldest, h ++ Subnet_SecurityListIDs subnet)
        /\ In oldest (map listOf (Subnet_SecurityListIDs subnet))
        /\ forall id, In id (Subnet_SecurityListIDs subnet) ->
             (SecurityLists.SecurityList_TimeCreated oldest
              <= SecurityLists.SecurityList_TimeCreated (listOf id))%Z)
  /\ (forall before id after e,
      Subnet_SecurityListIDs subnet = before ++ id :: after ->
      (forall h x, In x before -> get h x = inr (listOf x)) ->
      (forall h, get h id = inl e) ->
      SecurityLists.GetDefaultSecurityList get sortSlice subnet h
      = (Failed e, h ++ before ++ [id])).
Proof.
  intros HS. unfold SecurityLists.GetDefaultSecurityList.
  split; [|split].
  - intros ->. reflexivity.
  - intros Hne Hget.
    rewrite (SecurityListProofs.fetchLists_served get listOf)
      by assumption.
    cbn [app].
    destruct (map listOf (Subnet_SecurityListIDs subnet)) as [|l0 ls] eqn:E.
    + destruct (Subnet_SecurityListIDs subnet); [contradiction|discriminate].
    + destruct (SecurityListProofs.sorted_head_oldest sortSlice (l0 :: ls)
                  l0 HS) as [Hin Hmin]; [discriminate|].
      eexists. split; [reflexivity|]. split; [exact Hin|].
      intros id Hid. apply Hmin. rewrite <- E. now apply in_map.
  - intros before id after e -> Hget He.
    now rewrite (SecurityListProofs.fetchLists_fails get listOf before id
                   after e) by assumption.
Qed.

Lemma GetDefaultSecurityList_oldest_witness :
  exists oldest,
    SecurityLists.GetDefaultSecurityList SecurityLists.getExample
      SecurityLists.insertionSort Example.s2 []
    = (Returned oldest, [] ++ ["sl2"; "sl3"])
    /\ In oldest (map SecurityLists.listOf ["sl2"; "sl3"])
    /\ forall id, In id ["sl2"; "sl3"] ->
         (SecurityLists.SecurityList_TimeCreated oldest
          <= SecurityLists.SecurityList_TimeCreated
               (SecurityLists.listOf id))%Z.
Proof.
  apply (proj1 (proj2 (GetDefaultSecurityList_oldest
                         SecurityLists.getExample
                         SecurityLists.insertionSort SecurityLists.listOf
                         Example.s2 []
                         SecurityListProofs.insertionSort_Sorts))).
  - discriminate.
  - intros h id _. reflexivity.
Defined.
